(** * Sales-Analyzer-Lab-2.1: the two [SalesAnalyzer] variants

    A shallow embedding of [analyzer_claude.py] and [analyzer_gpt-4-1.py]
    and the properties of their loader and aggregator.

    - Python [float] is IEEE binary64, modelled by the Standard Library's
      executable [spec_float] at precision 53 and maximal exponent 1024.
    - Python [int] is [Z]; text is [string], one character per code point
      below 256.
    - A method is a function from the object's state to an outcome (a value or
      a raised exception), the new state and the lines it printed. *)

From Stdlib Require Import ZArith String Ascii List Bool Lia.
From Stdlib Require Import Floats.SpecFloat.
From stdpp Require Import base option list strings gmap.

Local Open Scope string_scope.
Local Open Scope list_scope.
Local Open Scope Z_scope.

(** ** Built-ins of the language that the program calls *)

Module Py.

(** *** [float]: binary64 *)

Definition float : Type := spec_float.
Definition prec : Z := 53.
Definition emax : Z := 1024.

Definition fadd : float -> float -> float := SFadd prec emax.
Definition fsub : float -> float -> float := SFsub prec emax.
Definition fmul : float -> float -> float := SFmul prec emax.
Definition fabs : float -> float := SFabs.
(** [x < y], [x <= y], [x == y]: false as soon as one side is NaN. *)
Definition flt : float -> float -> bool := SFltb.
Definition fle : float -> float -> bool := SFleb.
Definition feq : float -> float -> bool := SFeqb.
(** [x > y] is [y < x]. *)
Definition fgt (x y : float) : bool := flt y x.

Definition pos_zero : float := S754_zero false.
Definition nan : float := S754_nan.

Definition is_nan (x : float) : bool :=
  match x with S754_nan => true | _ => false end.

Definition is_finite (x : float) : bool :=
  match x with S754_zero _ | S754_finite _ _ _ => true | _ => false end.

(** The float nearest to [m * 2^e] (ties to even), infinite on overflow. *)
Definition round_to_float (m e : Z) (szero : bool) : float :=
  binary_normalize prec emax m e szero.

(** Exceptions the program can meet. *)
Inductive exn : Type :=
| OverflowError        (* int too large to convert to float *)
| AttributeError       (* 'NoneType' object has no attribute 'strip' *)
| FileNotFoundError
| OSError (msg : string)
| CsvError (msg : string).

Inductive outcome (A : Type) : Type :=
| Ret (a : A)
| Raise (e : exn).
Arguments Ret {A} a.
Arguments Raise {A} e.

(** Conversion of an [int] operand in [float * int]: correctly rounded, and
    [OverflowError] when the rounded value is not finite. *)
Definition float_of_int (z : Z) : outcome float :=
  match round_to_float z 0 false with
  | S754_infinity _ => Raise OverflowError
  | f => Ret f
  end.

(** [x * n] for a float [x] and an int [n]. *)
Definition fmul_int (x : float) (n : Z) : outcome float :=
  match float_of_int n with
  | Ret y => Ret (fmul x y)
  | Raise e => Raise e
  end.

(** Whether [float * int] can take the int [z]. *)
Definition int_fits_float (z : Z) : bool :=
  match float_of_int z with
  | Ret _ => true
  | Raise _ => false
  end.

(** *** [str.strip], [int(str)], [float(str)] *)

Definition code (c : ascii) : Z := Z.of_N (N_of_ascii c).

(** [str.isspace] on one character, for code points below 256. *)
Definition isspace (c : ascii) : bool :=
  let n := code c in
  ((9 <=? n) && (n <=? 13)) || ((28 <=? n) && (n <=? 32))
  || (n =? 133) || (n =? 160).

(** The blanks that [int] and [float] drop around a number. *)
Definition number_space (c : ascii) : bool :=
  let n := code c in
  ((9 <=? n) && (n <=? 13)) || (n =? 32) || (n =? 133) || (n =? 160).

Fixpoint lstrip_with (sp : ascii -> bool) (s : string) : string :=
  match s with
  | String c s' => if sp c then lstrip_with sp s' else s
  | EmptyString => EmptyString
  end.

Fixpoint rstrip_with (sp : ascii -> bool) (s : string) : string :=
  match s with
  | EmptyString => EmptyString
  | String c s' =>
      match rstrip_with sp s' with
      | EmptyString => if sp c then EmptyString else String c EmptyString
      | t => String c t
      end
  end.

Definition strip_with (sp : ascii -> bool) (s : string) : string :=
  rstrip_with sp (lstrip_with sp s).

(** [s.strip()]. *)
Definition strip (s : string) : string := strip_with isspace s.

Definition digit_val (c : ascii) : option Z :=
  let n := code c in
  if (48 <=? n) && (n <=? 57) then Some (n - 48) else None.

(** The rest of a [digitpart]: digits, each optionally preceded by one
    underscore.  Returns the value read so far, the number of digits read
    and the text left. *)
Fixpoint digits_tail (acc n : Z) (s : string) : Z * Z * string :=
  match s with
  | String c s' =>
      match digit_val c with
      | Some d => digits_tail (10 * acc + d) (n + 1) s'
      | None =>
          if Ascii.eqb c "_" then
            match s' with
            | String c2 s'' =>
                match digit_val c2 with
                | Some d => digits_tail (10 * acc + d) (n + 1) s''
                | None => (acc, n, s)
                end
            | EmptyString => (acc, n, s)
            end
          else (acc, n, s)
      end
  | EmptyString => (acc, n, s)
  end.

(** [digitpart ::= digit (["_"] digit)*], continuing from [acc]. *)
Definition digitpart (acc : Z) (s : string) : option (Z * Z * string) :=
  match s with
  | String c s' =>
      match digit_val c with
      | Some d => Some (digits_tail (10 * acc + d) 1 s')
      | None => None
      end
  | EmptyString => None
  end.

(** An optional sign: [true] for "-". *)
Definition sign (s : string) : bool * string :=
  match s with
  | String c s' =>
      if Ascii.eqb c "-" then (true, s')
      else if Ascii.eqb c "+" then (false, s')
      else (false, s)
  | EmptyString => (false, s)
  end.

(** [int(s)] in base 10; [None] is [ValueError].  The interpreter's cap on
    the number of digits (4300 by default from Python 3.11 on) is left out. *)
Definition int_of_string (s : string) : option Z :=
  let (neg, body) := sign (strip_with number_space s) in
  match digitpart 0 body with
  | Some (v, _, EmptyString) => Some (if neg then - v else v)
  | _ => None
  end.

(** The float nearest to [(-1)^neg * m * 10^e10] for [m >= 0]. *)
Definition float_of_decimal (neg : bool) (m e10 : Z) : float :=
  if m =? 0 then S754_zero neg
  else if 0 <=? e10 then
    round_to_float ((if neg then - m else m) * 10 ^ e10) 0 false
  else
    let d := 10 ^ (- e10) in
    let s := 64 + Z.log2 d in
    let q := (m * 2 ^ s) / d in
    let r := (m * 2 ^ s) mod d in
    let m' := 2 * q + (if r =? 0 then 0 else 1) in
    round_to_float (if neg then - m' else m') (- s - 1) false.

Definition lower (c : ascii) : ascii :=
  let n := code c in
  if (65 <=? n) && (n <=? 90) then ascii_of_N (Z.to_N (n + 32)) else c.

Fixpoint lowercase (s : string) : string :=
  match s with
  | String c s' => String (lower c) (lowercase s')
  | EmptyString => EmptyString
  end.

(** [exponent ::= ("e" | "E") [sign] digitpart]; absent exponent is 0. *)
Definition exponent (s : string) : option (Z * string) :=
  match s with
  | String c s' =>
      if Ascii.eqb (lower c) "e" then
        let (neg, body) := sign s' in
        match digitpart 0 body with
        | Some (v, _, rest) => Some (if neg then - v else v, rest)
        | None => None
        end
      else Some (0, s)
  | EmptyString => Some (0, s)
  end.

(** [number ::= [digitpart] "." digitpart | digitpart ["."]]: the digits as
    one integer, the number of digits after the point, the text left. *)
Definition number (s : string) : option (Z * Z * string) :=
  match digitpart 0 s with
  | Some (i, _, String c rest) =>
      if Ascii.eqb c "." then
        match digitpart i rest with
        | Some (v, k, rest') => Some (v, k, rest')
        | None => Some (i, 0, rest)
        end
      else Some (i, 0, String c rest)
  | Some (i, _, EmptyString) => Some (i, 0, EmptyString)
  | None =>
      match s with
      | String c rest =>
          if Ascii.eqb c "." then digitpart 0 rest else None
      | EmptyString => None
      end
  end.

(** [float(s)]; [None] is [ValueError].  The value is the binary64 nearest
    to the decimal read, ties to even; too large a decimal gives infinity. *)
Definition float_of_string (s : string) : option float :=
  let (neg, body) := sign (strip_with number_space s) in
  let word := lowercase body in
  if String.eqb word "inf" || String.eqb word "infinity" then
    Some (S754_infinity neg)
  else if String.eqb word "nan" then Some S754_nan
  else
    match number body with
    | Some (m, k, rest) =>
        match exponent rest with
        | Some (e, EmptyString) => Some (float_of_decimal neg m (e - k))
        | _ => None
        end
    | None => None
    end.

(** *** [sum] over floats

    [sum(iterable)] starts from the int 0; the first float item is added to
    it as [0.0 + x].  From then on the interpreter adds floats in C:
    plainly up to Python 3.11, with Neumaier's compensation from 3.12 on. *)

Inductive sum_impl : Type :=
| PlainSum        (* f_result += x *)
| NeumaierSum.    (* compensated, Python 3.12 and later *)

Definition plain_loop (f_result : float) (items : list float) : float :=
  fold_left fadd items f_result.

(** One step of the compensated loop on the running sum [f_result] and the
    compensation [c]. *)
Definition neumaier_step (acc : float * float) (x : float) : float * float :=
  let (f_result, c) := acc in
  let t := fadd f_result x in
  let c' :=
    if fle (fabs x) (fabs f_result)
    then fadd c (fadd (fsub f_result t) x)
    else fadd c (fadd (fsub x t) f_result) in
  (t, c').

Definition neumaier_loop (f_result : float) (items : list float) : float :=
  let (hi, c) := fold_left neumaier_step items (f_result, pos_zero) in
  if negb (feq c pos_zero) && is_finite c then fadd hi c else hi.

(** [sum(items)] for float items.  On no item at all Python returns the
    int 0, read here as the float [0.0]; both callers exclude that case. *)
Definition sum (impl : sum_impl) (items : list float) : float :=
  match items with
  | [] => pos_zero
  | x :: rest =>
      let first := fadd pos_zero x in
      match impl with
      | PlainSum => plain_loop first rest
      | NeumaierSum => neumaier_loop first rest
      end
  end.

(** *** [max(iterable, key=...)]

    The first item is the current best; a later item replaces it when its
    key is [>] the best key. *)
Fixpoint max_from {A : Type} (key : A -> float) (maxitem : A) (maxval : float)
    (items : list A) : A :=
  match items with
  | [] => maxitem
  | item :: rest =>
      let val := key item in
      if fgt val maxval then max_from key item val rest
      else max_from key maxitem maxval rest
  end.

(** [None] is the [ValueError] of an empty argument. *)
Definition max {A : Type} (key : A -> float) (items : list A) : option A :=
  match items with
  | [] => None
  | item :: rest => Some (max_from key item (key item) rest)
  end.

(** *** [csv.DictReader]

    The underlying [csv.reader] is the list of rows it yields, each a list
    of fields, and the exception it ends with when the input breaks off. *)
Record reader : Type := {
  reader_rows : list (list string);
  reader_fault : option exn
}.

(** A row of [DictReader]: field name to text, or to [None] where the
    line is shorter than the header ([restval]).  The surplus fields of a
    longer line go under the key [None], which the program never reads. *)
Definition dict : Type := gmap string (option string).

(** [dict(zip(fieldnames, row))] and then [restval] for the names left. *)
Definition dict_row (fieldnames row : list string) : dict :=
  let d :=
    fold_left (fun (d : dict) (kv : string * string) => <[kv.1 := Some kv.2]> d)
              (zip fieldnames row) ∅ in
  fold_left (fun (d : dict) (k : string) => <[k := None]> d)
            (drop (length row) fieldnames) d.

Definition is_blank_row (row : list string) : bool :=
  match row with [] => true | _ => false end.

(** The rows [DictReader] yields after the header: blank rows are passed
    over. *)
Definition dict_rows (fieldnames : list string) (body : list (list string))
    : list dict :=
  map (dict_row fieldnames) (List.filter (fun r => negb (is_blank_row r)) body).

(** [row.get(key, default)]: a present key gives its value, [None]
    included. *)
Definition get (d : dict) (key : string) (default : option string)
    : option string :=
  match d !! key with
  | Some v => v
  | None => default
  end.

(** [x or ""] for [x] a text or [None]. *)
Definition or_empty (x : option string) : string :=
  match x with
  | Some s => s
  | None => ""
  end.

End Py.

Import Py.

(** ** The data both variants share *)

(** An item of [self.data]: the dict with the keys ['product_name'],
    ['price'] and ['quantity']. *)
Record sales_row : Type := {
  product_name : string;
  price : float;
  quantity : Z
}.

(** An item of the list [find_top_product] builds: the three fields again
    and ['total_revenue']. *)
Record revenue_entry : Type := {
  entry_product_name : string;
  entry_price : float;
  entry_quantity : Z;
  total_revenue : float
}.

(** The attributes of a [SalesAnalyzer]. *)
Record analyzer : Type := {
  filename : string;
  data : list sales_row;
  total_sales : float;
  top_product : option revenue_entry
}.

Definition set_data (self : analyzer) (d : list sales_row) : analyzer :=
  {| filename := filename self; data := d;
     total_sales := total_sales self; top_product := top_product self |}.

Definition set_total_sales (self : analyzer) (t : float) : analyzer :=
  {| filename := filename self; data := data self;
     total_sales := t; top_product := top_product self |}.

Definition set_top_product (self : analyzer) (e : option revenue_entry) : analyzer :=
  {| filename := filename self; data := data self;
     total_sales := total_sales self; top_product := e |}.

(** [SalesAnalyzer(filename)]. *)
Definition init (name : string) : analyzer :=
  {| filename := name; data := []; total_sales := pos_zero; top_product := None |}.

(** What the file system answers for a path, as one way of opening the file
    sees it.  The reader of [Opened] is the [csv.reader] over the handle that
    a variant opens, and the two variants do not open alike:
    [analyzer_claude.py] (line 43) calls [open(path, mode='r')], which
    translates every line ending to a line feed before the reader sees it;
    [analyzer_gpt-4-1.py] (line 38) calls [open(path, mode='r', newline='')],
    which translates nothing.  On a file with a carriage return inside a
    quoted field the two readers yield different rows, so a statement that
    relates a run of one variant to a run of the other takes one
    [file_system] for each and says what it assumes of the two. *)
Inductive file_status : Type :=
| Missing                       (* os.path.exists(path) is False *)
| OpenFails (e : exn)           (* the path exists and open() raises *)
| Opened (r : reader).          (* the csv.reader over the opened file *)

Definition file_system : Type := string -> file_status.

(** The lines the program prints; each constructor is one [print] call of the
    source, its arguments the values formatted into the line. *)
Inductive line : Type :=
| NotFoundLine (name : string)
    (* Error: The file '{name}' was not found. *)
| SchemaLine
    (* Error: CSV file must contain 'product_name', 'price', and 'quantity' columns. *)
| EmptyNameLine (row_num : Z)
    (* Row {row_num}: Skipping row with empty product name. *)
| BadPriceLine (row_num : Z) (price_str : string)
    (* Row {row_num}: ValueError - Price '{price_str}' is not a valid number. Skipping row. *)
| BadQuantityLine (row_num : Z) (quantity_str : string)
    (* Row {row_num}: ValueError - Quantity '{quantity_str}' is not a valid integer. Skipping row. *)
| NegativePriceLine (row_num : Z) (p : float)
    (* Row {row_num}: ValueError - Price cannot be negative ({price}). Skipping row. *)
| NegativeQuantityLine (row_num : Z) (q : Z)
    (* Row {row_num}: ValueError - Quantity cannot be negative ({quantity}). Skipping row. *)
| UnexpectedRowLine (row_num : Z) (e : exn)
    (* Row {row_num}: Unexpected error - {e}. Skipping row. *)
| NoValidRowsLine
    (* Warning: No valid data rows found in the CSV file. *)
| FileNotFoundErrorLine (name : string)
    (* FileNotFoundError: The file '{name}' was not found. *)
| UnexpectedErrorLine (name : string) (e : exn)
    (* UnexpectedError: An error occurred while loading '{name}': {e} *)
| NoDataLine
    (* Error: No data loaded. Call load_data() first. *)
| TotalLine (name : string) (total : float)
    (* Total sales from {name}: ${total:.2f} *)
| RuleLine
    (* sixty "=", with the blank line the source puts before or after *)
| TitleLine
    (* TOP-SELLING PRODUCT ANALYSIS *)
| ProductNameLine (name : string)
| UnitPriceLine (p : float)
| QuantitySoldLine (q : Z)
| TotalRevenueLine (r : float)
| NoTopProductLine
    (* Warning: No top product found. *)
| FailedLine.
    (* Failed to load data. Exiting. *)

(** The outcome of a method call, the object afterwards, the lines printed. *)
Definition run (A : Type) : Type := outcome A * analyzer * list line.

(** What the [except] clauses of [load_data] print for an exception that
    leaves the [try] body. *)
Definition handler_line (name : string) (e : exn) : line :=
  match e with
  | FileNotFoundError => FileNotFoundErrorLine name
  | _ => UnexpectedErrorLine name e
  end.

(** [item['price'] * item['quantity']]. *)
Definition revenue (item : sales_row) : outcome float :=
  fmul_int (price item) (quantity item).

(** The items of a comprehension or generator whose element expression can
    raise: all of them, or the first exception. *)
Fixpoint collect {A B : Type} (f : A -> outcome B) (items : list A)
    : outcome (list B) :=
  match items with
  | [] => Ret []
  | x :: rest =>
      match f x with
      | Raise e => Raise e
      | Ret y =>
          match collect f rest with
          | Raise e => Raise e
          | Ret ys => Ret (y :: ys)
          end
      end
  end.

(** The dict [find_top_product] builds for one item. *)
Definition entry_of (item : sales_row) : outcome revenue_entry :=
  match revenue item with
  | Raise e => Raise e
  | Ret r =>
      Ret {| entry_product_name := product_name item;
             entry_price := price item;
             entry_quantity := quantity item;
             total_revenue := r |}
  end.

(** What the loop body of [load_data] does with one row: a printed line and
    [continue], or a record appended to [self.data]. *)
Definition row_result : Type := line + sales_row.

Fixpoint load_rows (body : Z -> dict -> row_result) (row_num : Z)
    (rows : list dict) (acc : list sales_row) : list sales_row * list line :=
  match rows with
  | [] => (acc, [])
  | row :: rest =>
      match body row_num row with
      | inl l =>
          let (d, out) := load_rows body (row_num + 1) rest acc in (d, l :: out)
      | inr r => load_rows body (row_num + 1) rest (acc ++ [r])
      end
  end.

(** The end of [load_data] once the loop is over: the reader's fault reaches
    the outer handler; otherwise an empty [self.data] fails the load. *)
Definition finish_load (self : analyzer) (fault : option exn)
    (loaded : list sales_row * list line) : bool * analyzer * list line :=
  let (d, out) := loaded in
  match fault with
  | Some e => (false, set_data self d, out ++ [handler_line (filename self) e])
  | None =>
      match d with
      | [] => (false, set_data self d, out ++ [NoValidRowsLine])
      | _ => (true, set_data self d, out)
      end
  end.

(** ** [analyzer_claude.py] *)

Module Claude.

(** The body of the [for] loop, lines 51 to 91.  [.strip()] on a [None]
    value raises [AttributeError], which the inner [except Exception]
    turns into a printed line. *)
Definition load_row (row_num : Z) (row : dict) : row_result :=
  match get row "product_name" (Some "") with
  | None => inl (UnexpectedRowLine row_num AttributeError)
  | Some name_text =>
  let product_name := strip name_text in
  match get row "price" (Some "") with
  | None => inl (UnexpectedRowLine row_num AttributeError)
  | Some price_text =>
  let price_str := strip price_text in
  match get row "quantity" (Some "") with
  | None => inl (UnexpectedRowLine row_num AttributeError)
  | Some quantity_text =>
  let quantity_str := strip quantity_text in
  if String.eqb product_name "" then inl (EmptyNameLine row_num)
  else
    match float_of_string price_str with
    | None => inl (BadPriceLine row_num price_str)
    | Some price =>
    match int_of_string quantity_str with
    | None => inl (BadQuantityLine row_num quantity_str)
    | Some quantity =>
    if flt price pos_zero then inl (NegativePriceLine row_num price)
    else if quantity <? 0 then inl (NegativeQuantityLine row_num quantity)
    else inr {| product_name := product_name;
                price := price;
                quantity := quantity |}
    end
    end
  end
  end
  end.

(** Line 46: [fieldnames is None or 'product_name' not in fieldnames]. *)
Definition header_rejected (fieldnames : option (list string)) : bool :=
  match fieldnames with
  | None => true
  | Some names => negb (bool_decide ("product_name" ∈ names))
  end.

Definition load_data (fs : file_system) (self : analyzer)
    : bool * analyzer * list line :=
  match fs (filename self) with
  | Missing => (false, self, [NotFoundLine (filename self)])
  | OpenFails e =>
      (false, set_data self [], [handler_line (filename self) e])
  | Opened r =>
      let self := set_data self [] in
      match reader_rows r with
      | [] =>
          match reader_fault r with
          | Some e => (false, self, [handler_line (filename self) e])
          | None => (false, self, [SchemaLine])
          end
      | fieldnames :: body =>
          if header_rejected (Some fieldnames) then (false, self, [SchemaLine])
          else
            finish_load self (reader_fault r)
              (load_rows load_row 2 (dict_rows fieldnames body) [])
      end
  end.

Definition calculate_total_sales (impl : sum_impl) (self : analyzer) : run float :=
  match data self with
  | [] => (Ret pos_zero, self, [NoDataLine])
  | _ =>
      match collect revenue (data self) with
      | Raise e => (Raise e, self, [])
      | Ret revenues =>
          let total := sum impl revenues in
          (Ret total, set_total_sales self total, [])
      end
  end.

Definition find_top_product (self : analyzer) : run (option revenue_entry) :=
  match data self with
  | [] => (Ret None, self, [NoDataLine])
  | _ =>
      match collect entry_of (data self) with
      | Raise e => (Raise e, self, [])
      | Ret products_with_revenue =>
          let top := max total_revenue products_with_revenue in
          (Ret top, set_top_product self top, [])
      end
  end.

Definition display_results (self : analyzer) : list line :=
  TotalLine (filename self) (total_sales self) ::
  match top_product self with
  | Some top =>
      [RuleLine; TitleLine; RuleLine;
       ProductNameLine (entry_product_name top);
       UnitPriceLine (entry_price top);
       QuantitySoldLine (entry_quantity top);
       TotalRevenueLine (total_revenue top);
       RuleLine]
  | None => [NoTopProductLine]
  end.

(** The [__main__] block. *)
Definition main (impl : sum_impl) (fs : file_system) : run unit :=
  let analyzer := init "sales_data.csv" in
  let '(ok, analyzer, out1) := load_data fs analyzer in
  if ok then
    match calculate_total_sales impl analyzer with
    | (Raise e, analyzer, out2) => (Raise e, analyzer, out1 ++ out2)
    | (Ret _, analyzer, out2) =>
        match find_top_product analyzer with
        | (Raise e, analyzer, out3) => (Raise e, analyzer, out1 ++ out2 ++ out3)
        | (Ret _, analyzer, out3) =>
            (Ret tt, analyzer, out1 ++ out2 ++ out3 ++ display_results analyzer)
        end
    end
  else (Ret tt, analyzer, out1 ++ [FailedLine]).

End Claude.

(** ** [analyzer_gpt-4-1.py] *)

Module Gpt41.

(** The body of the [for] loop, lines 47 to 75.  A [None] value reads as
    the empty text: [(row.get(key) or '').strip()]. *)
Definition load_row (row_num : Z) (row : dict) : row_result :=
  let product := strip (or_empty (get row "product_name" None)) in
  let price_str := strip (or_empty (get row "price" None)) in
  let qty_str := strip (or_empty (get row "quantity" None)) in
  if String.eqb product "" then inl (EmptyNameLine row_num)
  else
    match float_of_string price_str with
    | None => inl (BadPriceLine row_num price_str)
    | Some price =>
    match int_of_string qty_str with
    | None => inl (BadQuantityLine row_num qty_str)
    | Some quantity =>
    if flt price pos_zero then inl (NegativePriceLine row_num price)
    else if quantity <? 0 then inl (NegativeQuantityLine row_num quantity)
    else inr {| product_name := product;
                price := price;
                quantity := quantity |}
    end
    end.

Definition expected : list string := ["product_name"; "price"; "quantity"].

(** Line 42: [fieldnames is None or not expected.issubset(set(fieldnames))]. *)
Definition header_rejected (fieldnames : option (list string)) : bool :=
  match fieldnames with
  | None => true
  | Some names =>
      negb (forallb (fun column => bool_decide (column ∈ names)) expected)
  end.

Definition load_data (fs : file_system) (self : analyzer)
    : bool * analyzer * list line :=
  match fs (filename self) with
  | Missing => (false, self, [NotFoundLine (filename self)])
  | OpenFails e =>
      (false, set_data self [], [handler_line (filename self) e])
  | Opened r =>
      let self := set_data self [] in
      match reader_rows r with
      | [] =>
          match reader_fault r with
          | Some e => (false, self, [handler_line (filename self) e])
          | None => (false, self, [SchemaLine])
          end
      | fieldnames :: body =>
          if header_rejected (Some fieldnames) then (false, self, [SchemaLine])
          else
            finish_load self (reader_fault r)
              (load_rows load_row 2 (dict_rows fieldnames body) [])
      end
  end.

Definition calculate_total_sales (impl : sum_impl) (self : analyzer) : run float :=
  match data self with
  | [] => (Ret pos_zero, self, [NoDataLine])
  | _ =>
      match collect revenue (data self) with
      | Raise e => (Raise e, self, [])
      | Ret revenues =>
          let total := sum impl revenues in
          (Ret total, set_total_sales self total, [])
      end
  end.

Definition find_top_product (self : analyzer) : run (option revenue_entry) :=
  match data self with
  | [] => (Ret None, self, [NoDataLine])
  | _ =>
      match collect entry_of (data self) with
      | Raise e => (Raise e, self, [])
      | Ret products =>
          let top := max total_revenue products in
          (Ret top, set_top_product self top, [])
      end
  end.

(** The [__main__] block; the report is printed in place. *)
Definition main (impl : sum_impl) (fs : file_system) : run unit :=
  let sales_data_file := "sales_data.csv" in
  let analyzer := init sales_data_file in
  let '(ok, analyzer, out1) := load_data fs analyzer in
  if ok then
    match calculate_total_sales impl analyzer with
    | (Raise e, analyzer, out2) => (Raise e, analyzer, out1 ++ out2)
    | (Ret _, analyzer, out2) =>
        match find_top_product analyzer with
        | (Raise e, analyzer, out3) => (Raise e, analyzer, out1 ++ out2 ++ out3)
        | (Ret _, analyzer, out3) =>
            let report :=
              TotalLine sales_data_file (total_sales analyzer) ::
              match top_product analyzer with
              | Some top =>
                  [RuleLine; TitleLine; RuleLine;
                   ProductNameLine (entry_product_name top);
                   UnitPriceLine (entry_price top);
                   QuantitySoldLine (entry_quantity top);
                   TotalRevenueLine (total_revenue top);
                   RuleLine]
              | None => []
              end in
            (Ret tt, analyzer, out1 ++ out2 ++ out3 ++ report)
        end
    end
  else (Ret tt, analyzer, out1 ++ [FailedLine]).

End Gpt41.

(** ** The specification's words, for comparison with the code *)

Module Spec.

(** The five reasons a row is skipped, in the order of section 4.1. *)
Inductive reason : Type :=
| EmptyProductName
| PriceNotANumber
| QuantityNotAnInteger
| NegativePrice
| NegativeQuantity.

(** The five checks on the three raw fields of a row, the first failure
    deciding; an absent field reads as the empty text. *)
Definition validate (name_field price_field quantity_field : string)
    : reason + sales_row :=
  let name := strip name_field in
  if String.eqb name "" then inl EmptyProductName
  else
    match float_of_string (strip price_field) with
    | None => inl PriceNotANumber
    | Some p =>
        match int_of_string (strip quantity_field) with
        | None => inl QuantityNotAnInteger
        | Some q =>
            if flt p pos_zero then inl NegativePrice
            else if q <? 0 then inl NegativeQuantity
            else inr {| product_name := name; price := p; quantity := q |}
        end
    end.

(** The text of a field of a row, empty when the field is absent. *)
Definition field (row : dict) (key : string) : string :=
  match row !! key with
  | Some (Some text) => text
  | _ => ""
  end.

Definition validate_row (row : dict) : reason + sales_row :=
  validate (field row "product_name") (field row "price") (field row "quantity").

(** The loader over the data rows, the first of them row 2: the records
    kept, in order, and the diagnostics, each a row position and a reason. *)
Fixpoint load (position : Z) (rows : list dict)
    : list sales_row * list (Z * reason) :=
  match rows with
  | [] => ([], [])
  | row :: rest =>
      let (records, diagnostics) := load (position + 1) rest in
      match validate_row row with
      | inl why => (records, (position, why) :: diagnostics)
      | inr record => (record :: records, diagnostics)
      end
  end.

(** The row position and the reason a printed line names, for the lines
    that report one of the five failures. *)
Definition diagnostic_of (l : line) : option (Z * reason) :=
  match l with
  | EmptyNameLine n => Some (n, EmptyProductName)
  | BadPriceLine n _ => Some (n, PriceNotANumber)
  | BadQuantityLine n _ => Some (n, QuantityNotAnInteger)
  | NegativePriceLine n _ => Some (n, NegativePrice)
  | NegativeQuantityLine n _ => Some (n, NegativeQuantity)
  | _ => None
  end.

(** Revenue of a record: unit price times quantity sold, in the
    language's float arithmetic. *)
Definition revenue (record : sales_row) : float :=
  fmul (price record) (round_to_float (quantity record) 0 false).

(** RevenueEntry: the record's fields and its revenue. *)
Definition revenue_entry_of (record : sales_row) : revenue_entry :=
  {| entry_product_name := product_name record;
     entry_price := price record;
     entry_quantity := quantity record;
     total_revenue := revenue record |}.

(** Total revenue: the sum of the revenues of all records. *)
Definition total (impl : sum_impl) (records : list sales_row) : float :=
  sum impl (map revenue records).

(** The reference selection of the top product: scan left to right and
    replace the current best only on a strictly greater revenue. *)
Definition better (best candidate : sales_row) : sales_row :=
  if flt (revenue best) (revenue candidate) then candidate else best.

Definition top_record (records : list sales_row) : option sales_row :=
  match records with
  | [] => None
  | first :: others => Some (fold_left better others first)
  end.

End Spec.

(** ** Predicates of the statements *)

(** The quantity of [item] converts to a float: [item['price'] *
    item['quantity']] raises nothing. *)
Definition fits (item : sales_row) : Prop := int_fits_float (quantity item) = true.

(** A field of a row that is not [None]: its key is absent from the header
    or the line is long enough to reach its column. *)
Definition present (row : dict) (key : string) : bool :=
  match row !! key with
  | Some None => false
  | _ => true
  end.

(** A row none of whose three fields is [None]. *)
Definition complete (row : dict) : bool :=
  present row "product_name" && present row "price" && present row "quantity".

(** The lines the loop of [load_data] prints. *)
Definition is_row_line (l : line) : bool :=
  match l with
  | EmptyNameLine _ | BadPriceLine _ _ | BadQuantityLine _ _
  | NegativePriceLine _ _ | NegativeQuantityLine _ _ | UnexpectedRowLine _ _ => true
  | _ => false
  end.

(** The loop body ([got]) keeps exactly the record the five checks ([want])
    accept, and prints a row line otherwise. *)
Definition same_record (got : row_result) (want : Spec.reason + sales_row) : Prop :=
  match got, want with
  | inr a, inr b => a = b
  | inl l, inl _ => is_row_line l = true
  | _, _ => False
  end.

(** And the line it prints for a skipped row names the position [n] and the
    reason of the first failing check. *)
Definition same_diagnostic (n : Z) (got : row_result)
    (want : Spec.reason + sales_row) : Prop :=
  match got, want with
  | inr a, inr b => a = b
  | inl l, inl why => Spec.diagnostic_of l = Some (n, why)
  | _, _ => False
  end.

(** What the loop body does with each row in turn, the first of them
    numbered [row_num] ([enumerate(csv_reader, start=2)] gives 2). *)
Fixpoint row_results (body : Z -> dict -> row_result) (row_num : Z)
    (rows : list dict) : list row_result :=
  match rows with
  | [] => []
  | row :: rest => body row_num row :: row_results body (row_num + 1) rest
  end.

(** Of the outcomes of the rows, in order: the records appended to
    [self.data] and the lines printed. *)
Definition kept (results : list row_result) : list sales_row :=
  omap (fun result => match result with inr record => Some record | inl _ => None end)
       results.

Definition printed (results : list row_result) : list line :=
  omap (fun result => match result with inl l => Some l | inr _ => None end)
       results.

(** A text that does not start with a blank. *)
Definition clean_head (sp : ascii -> bool) (s : string) : Prop :=
  match s with
  | String c _ => sp c = false
  | EmptyString => True
  end.

(** What the five checks establish of a record: the name is trimmed and not
    empty, the price is not below zero, the quantity is not negative. *)
Definition checked (record : sales_row) : Prop :=
  product_name record <> "" /\
  strip (product_name record) = product_name record /\
  flt (price record) pos_zero = false /\
  0 <= quantity record.

(** ** Inputs of the examples *)

(** The floats 1.0, 5.0 and 10.0. *)
Definition one : float := S754_finite false 4503599627370496 (-52).
Definition five : float := S754_finite false 5629499534213120 (-50).
Definition ten : float := S754_finite false 5629499534213120 (-49).

(** The two records of section 8 that tie at revenue 10. *)
Definition tie_data : list sales_row :=
  [ {| product_name := "A"; price := ten; quantity := 1 |};
    {| product_name := "B"; price := five; quantity := 2 |} ].

Definition tie_analyzer : analyzer := set_data (init "sales_data.csv") tie_data.

(** The same two rows in a file, followed by a row that sells 10^400 units
    at price 0. *)
Definition tie_then_huge_file : file_system := fun _ =>
  Opened {| reader_rows := [ ["product_name"; "price"; "quantity"];
                             ["A"; "10"; "1"]; ["B"; "5"; "2"];
                             ["C"; "0"; String "1" (string_of_list_ascii (repeat "0"%char 400))] ];
            reader_fault := None |}.

(** The same two rows in a file, preceded by a row that sells 0 units at
    the price [inf]. *)
Definition inf_then_tie_file : file_system := fun _ =>
  Opened {| reader_rows := [ ["product_name"; "price"; "quantity"];
                             ["N"; "inf"; "0"]; ["A"; "10"; "1"]; ["B"; "5"; "2"] ];
            reader_fault := None |}.

Definition columns : list string := ["product_name"; "price"; "quantity"].

(** A file system in which every path opens on the given lines, header
    first, and reads to the end. *)
Definition file_of (lines : list (list string)) : file_system := fun _ =>
  Opened {| reader_rows := lines; reader_fault := None |}.

Definition zeros (n : nat) : string := string_of_list_ascii (repeat "0"%char n).

(** A file whose only row sells 10^400 units at price 1. *)
Definition huge_quantity_file : file_system :=
  file_of [columns; ["A"; "1"; String "1" (zeros 400)]].

(** A file whose only data line is [,5]: empty name, price 5, no quantity. *)
Definition short_row_file : file_system := file_of [columns; [""; "5"]].

(** The file of section 8: one valid row, then a negative quantity, an empty
    name and an unparseable price. *)
Definition section8_rows : list (list string) :=
  [["A"; "10"; "2"]; ["B"; "5"; "-1"]; [""; "3"; "4"]; ["C"; "x"; "1"]].

Definition section8_reader : reader :=
  {| reader_rows := columns :: section8_rows; reader_fault := None |}.

Definition section8_file : file_system := fun _ => Opened section8_reader.

(** A file whose first data line is [,5], one field short, followed by a
    row with an unparseable price and a valid row. *)
Definition after_short_rows : list (list string) :=
  [[""; "5"]; ["B"; "x"; "1"]; ["A"; "10"; "2"]].

Definition after_short_reader : reader :=
  {| reader_rows := columns :: after_short_rows; reader_fault := None |}.

Definition after_short_file : file_system := fun _ => Opened after_short_reader.

(** A file all of whose rows have a negative price. *)
Definition negative_prices : list (list string) :=
  [["A"; "-10"; "2"]; ["B"; "-5"; "1"]].

Definition negative_prices_reader : reader :=
  {| reader_rows := columns :: negative_prices; reader_fault := None |}.

Definition negative_prices_file : file_system := fun _ => Opened negative_prices_reader.

(** A file whose only row has the price [nan]. *)
Definition nan_price_file : file_system := file_of [columns; ["A"; "nan"; "1"]].

(** A file with the columns [product_name] and [quantity] only. *)
Definition no_price_file : file_system :=
  file_of [["product_name"; "quantity"]; ["A"; "2"]].

(** A file whose only row has the quoted name [A], carriage return, [B], as
    the two variants read it: over the handle of [analyzer_claude.py] the
    carriage return arrives as a line feed, over that of
    [analyzer_gpt-4-1.py] as it is. *)
Definition quoted_return_translated : file_system :=
  file_of [columns; [String "A" (String "010" "B"); "10"; "2"]].

Definition quoted_return_untranslated : file_system :=
  file_of [columns; [String "A" (String "013" "B"); "10"; "2"]].

(** ** The text the two [load_data] share

    The two methods differ in the test of the header and in the body of the
    loop only; [load_shape] is their common text with these two as
    parameters, so that a fact about both is proved once. *)
Definition load_shape (rejected : option (list string) -> bool)
    (body : Z -> dict -> row_result) (fs : file_system) (self : analyzer)
    : bool * analyzer * list line :=
  match fs (filename self) with
  | Missing => (false, self, [NotFoundLine (filename self)])
  | OpenFails e =>
      (false, set_data self [], [handler_line (filename self) e])
  | Opened r =>
      let self := set_data self [] in
      match reader_rows r with
      | [] =>
          match reader_fault r with
          | Some e => (false, self, [handler_line (filename self) e])
          | None => (false, self, [SchemaLine])
          end
      | fieldnames :: rest =>
          if rejected (Some fieldnames) then (false, self, [SchemaLine])
          else
            finish_load self (reader_fault r)
              (load_rows body 2 (dict_rows fieldnames rest) [])
      end
  end.

(** The lines that end a failed [load_data]. *)
Definition is_failure_line (l : line) : bool :=
  match l with
  | NotFoundLine _ | SchemaLine | NoValidRowsLine
  | FileNotFoundErrorLine _ | UnexpectedErrorLine _ _ => true
  | _ => false
  end.

(** The lines of the report after a successful run. *)
Definition report (name : string) (total : float) (top : revenue_entry) : list line :=
  [TotalLine name total; RuleLine; TitleLine; RuleLine;
   ProductNameLine (entry_product_name top);
   UnitPriceLine (entry_price top);
   QuantitySoldLine (entry_quantity top);
   TotalRevenueLine (total_revenue top);
   RuleLine].

(** A float that is not below zero: [x < 0] is false. *)
Definition not_negative (x : float) : Prop := flt x pos_zero = false.

(** A file that breaks off with a read error after one valid row. *)
Definition broken_reader : reader :=
  {| reader_rows := [columns; ["A"; "10"; "2"]];
     reader_fault := Some (OSError "read error") |}.

(** The columns in another order, with one more column between them. *)
Definition shuffled_columns : list string :=
  ["quantity"; "note"; "product_name"; "price"].

(** The three fields of a line whose header has [product_name] at column
    [i], [price] at column [j] and [quantity] at column [k]. *)
Definition pick (i j k : nat) (row : list string) : list string :=
  [default "" (row !! i); default "" (row !! j); default "" (row !! k)].

(** ** Order facts on binary64

    [SFcompare] orders the floats other than NaN lexicographically by sign,
    exponent and mantissa; the facts below are all the proofs use. *)

Section FloatOrder.

Ltac float_cases :=
  repeat match goal with
         | x : float |- _ => destruct x as [[]|[]| |[] ? ?]
         end.

Ltac compare_cases :=
  repeat match goal with
         | |- context [Z.compare ?a ?b] => destruct (Z.compare_spec a b)
         | H : context [Z.compare ?a ?b] |- _ => destruct (Z.compare_spec a b)
         | |- context [Pos.compare_cont Eq ?a ?b] =>
             change (Pos.compare_cont Eq a b) with (Pos.compare a b);
             destruct (Pos.compare_spec a b)
         | H : context [Pos.compare_cont Eq ?a ?b] |- _ =>
             change (Pos.compare_cont Eq a b) with (Pos.compare a b) in H;
             destruct (Pos.compare_spec a b)
         end;
  simpl in *; try discriminate; try reflexivity; try lia.

Ltac order_cases :=
  unfold feq, flt, fle, SFeqb, SFltb, SFleb, SFcompare;
  float_cases; simpl in *; try discriminate; try reflexivity;
  intros; compare_cases.

Lemma flt_fle (x y : float) : flt x y = true -> fle x y = true.
Proof.
  unfold flt, fle, SFltb, SFleb.
  destruct (SFcompare x y) as [[]|]; congruence.
Qed.

Lemma fle_not_nan (x y : float) :
  fle x y = true -> is_nan x = false /\ is_nan y = false.
Proof. unfold fle, SFleb, SFcompare. destruct x, y; simpl; auto; discriminate. Qed.

Lemma fle_refl (x : float) : is_nan x = false -> fle x x = true.
Proof. order_cases. Qed.

Lemma fle_total (x y : float) :
  is_nan x = false -> is_nan y = false -> flt x y = false -> fle y x = true.
Proof. order_cases. Qed.

Lemma fle_flt_trans (x y z : float) :
  fle x y = true -> flt y z = true -> flt x z = true.
Proof. order_cases. Qed.

Lemma fle_antisym (x y : float) :
  fle x y = true -> fle y x = true -> feq x y = true.
Proof. order_cases. Qed.

Lemma flt_irrefl (x : float) : flt x x = false.
Proof. order_cases. Qed.

End FloatOrder.

(** ** Integers that convert to a float

    An int below 2^53 in magnitude is a float exactly; the conversion in
    [float * int] does not overflow on it. *)

Lemma digits2_lower (m : positive) : 2 ^ (Zpos (digits2_pos m) - 1) <= Zpos m.
Proof.
  induction m as [m IH|m IH|]; simpl digits2_pos.
  - rewrite Pos2Z.inj_succ. replace (Z.succ (Zpos (digits2_pos m)) - 1) with (Z.succ (Zpos (digits2_pos m) - 1)) by lia.
    rewrite Z.pow_succ_r by lia. lia.
  - rewrite Pos2Z.inj_succ. replace (Z.succ (Zpos (digits2_pos m)) - 1) with (Z.succ (Zpos (digits2_pos m) - 1)) by lia.
    rewrite Z.pow_succ_r by lia. lia.
  - simpl. lia.
Qed.

Lemma digits2_iter_xO (m k : positive) :
  digits2_pos (Pos.iter xO m k) = (digits2_pos m + k)%positive.
Proof.
  induction k as [|k IH] using Pos.peano_ind.
  - simpl. lia.
  - rewrite Pos.iter_succ. simpl. rewrite IH. lia.
Qed.

Lemma small_pos_round (s : bool) (m : positive) :
  Zpos m < 2 ^ 53 ->
  exists m' e', binary_round prec emax s m 0 = S754_finite s m' e'.
Proof.
  intros Hm.
  assert (Hd : Zpos (digits2_pos m) <= 53).
  { pose proof (digits2_lower m) as Hlow.
    destruct (Z_le_gt_dec (Zpos (digits2_pos m)) 53) as [|Hgt]; [assumption|].
    exfalso. assert (2 ^ 53 <= 2 ^ (Zpos (digits2_pos m) - 1)) by (apply Z.pow_le_mono_r; lia). lia. }
  unfold binary_round, shl_align, binary_round_aux, shr_fexp, fexp, emin, prec, emax.
  change IntDef.Z.max with Z.max.
  rewrite Z.add_0_r.
  rewrite (Z.max_l (Zpos (digits2_pos m) - 53)) by lia.
  destruct (Zpos (digits2_pos m) - 53 - 0) as [|k|k] eqn:Hk; try lia.
  - simpl Zdigits2.
    assert (Hshift : Z.max (Zpos (digits2_pos m) + 0 - 53) (3 - 1024 - 53) - 0 = 0) by lia.
    rewrite Hshift. simpl. rewrite Hshift. simpl. eauto.
  - simpl Zdigits2. rewrite digits2_iter_xO.
    assert (Hshift : Z.max (Zpos (digits2_pos m + k) + (Zpos (digits2_pos m) - 53) - 53)
                           (3 - 1024 - 53) - (Zpos (digits2_pos m) - 53) = 0) by lia.
    rewrite Hshift. simpl.
    change (digits2_pos (PosDef.Pos.iter xO m k)) with (digits2_pos (Pos.iter xO m k)).
    rewrite digits2_iter_xO, Hshift. simpl.
    destruct (Zpos (digits2_pos m) - 53 <=? 1024 - 53) eqn:Hle; [eauto|].
    apply Z.leb_gt in Hle. lia.
Qed.

Lemma small_int_fits (z : Z) : Z.abs z < 2 ^ 53 -> int_fits_float z = true.
Proof.
  intros Hz. unfold int_fits_float, float_of_int, round_to_float, binary_normalize.
  destruct z as [|m|m]; [reflexivity| |].
  - destruct (small_pos_round false m) as (m' & e' & ->); [exact Hz|reflexivity].
  - destruct (small_pos_round true m) as (m' & e' & ->); [exact Hz|reflexivity].
Qed.

Example float_of_int_range :
  int_fits_float (2 ^ 1024 - 2 ^ 970 - 1) = true /\
  int_fits_float (2 ^ 1024 - 2 ^ 970) = false /\
  float_of_int (10 ^ 400) = Raise OverflowError /\
  float_of_int 9007199254740993 = Ret (S754_finite false 4503599627370496 1).
Proof. vm_compute. repeat split; reflexivity. Qed.

(** ** The built-ins on sample arguments *)

Example strip_samples :
  strip "  a b	 " = "a b" /\ strip "   " = "" /\ strip "x" = "x".
Proof. vm_compute. repeat split; reflexivity. Qed.

Example int_of_string_samples :
  int_of_string "10" = Some 10 /\ int_of_string "-1" = Some (-1) /\
  int_of_string "+007" = Some 7 /\ int_of_string "1_000" = Some 1000 /\
  int_of_string "" = None /\ int_of_string "1.0" = None /\
  int_of_string "1__0" = None /\ int_of_string "x" = None.
Proof. vm_compute. repeat split; reflexivity. Qed.

Example float_of_string_samples :
  float_of_string "10" = Some ten /\
  float_of_string "5" = Some five /\
  float_of_string "1e0" = Some one /\
  float_of_string "0.1" = Some (S754_finite false 7205759403792794 (-56)) /\
  float_of_string "-0.0" = Some (S754_zero true) /\
  float_of_string "1e400" = Some (S754_infinity false) /\
  float_of_string "-Infinity" = Some (S754_infinity true) /\
  float_of_string "NaN" = Some nan /\
  float_of_string "4.9e-324" = Some (S754_finite false 1 (-1074)) /\
  float_of_string "" = None /\ float_of_string "x" = None /\
  float_of_string "1e" = None /\ float_of_string "." = None.
Proof. vm_compute. repeat split; reflexivity. Qed.

(** Ten times 0.1: 0.9999999999999999 when added plainly, 1.0 with the
    compensation. *)
Example sum_samples :
  let tenth := S754_finite false 7205759403792794 (-56) in
  sum PlainSum (repeat tenth 10) = S754_finite false 9007199254740991 (-53) /\
  sum NeumaierSum (repeat tenth 10) = one /\
  sum PlainSum [S754_zero true] = pos_zero.
Proof. vm_compute. repeat split; reflexivity. Qed.

(** ** The aggregator on collections whose quantities fit a float *)

Lemma revenue_fits (item : sales_row) :
  fits item -> revenue item = Ret (Spec.revenue item).
Proof.
  unfold fits, int_fits_float, revenue, fmul_int, Spec.revenue, float_of_int.
  destruct (round_to_float (quantity item) 0 false); intros H;
    try reflexivity; discriminate.
Qed.

Lemma revenue_overflow (item : sales_row) :
  ~ fits item -> revenue item = Raise OverflowError.
Proof.
  unfold fits, int_fits_float, revenue, fmul_int, float_of_int.
  destruct (round_to_float (quantity item) 0 false); intros H;
    try reflexivity; exfalso; apply H; reflexivity.
Qed.

Lemma revenue_ret (item : sales_row) (r : float) :
  revenue item = Ret r -> fits item /\ Spec.revenue item = r.
Proof.
  intros Hr. destruct (int_fits_float (quantity item)) eqn:Hitem.
  - split; [exact Hitem|]. rewrite (revenue_fits item Hitem) in Hr.
    congruence.
  - rewrite revenue_overflow in Hr; [discriminate|].
    unfold fits. rewrite Hitem. discriminate.
Qed.

Lemma small_quantity_fits (item : sales_row) :
  Z.abs (quantity item) < 2 ^ 53 -> fits item.
Proof. apply small_int_fits. Qed.

Lemma collect_revenue_fits (items : list sales_row) :
  Forall fits items -> collect revenue items = Ret (map Spec.revenue items).
Proof.
  induction 1 as [|item items Hfit _ IH]; simpl.
  - reflexivity.
  - rewrite (revenue_fits item Hfit), IH. reflexivity.
Qed.

Lemma collect_entry_fits (items : list sales_row) :
  Forall fits items ->
  collect entry_of items = Ret (map Spec.revenue_entry_of items).
Proof.
  induction 1 as [|item items Hfit _ IH]; simpl.
  - reflexivity.
  - unfold entry_of at 1. rewrite (revenue_fits item Hfit), IH. reflexivity.
Qed.

(** [max] over the entries is the reference scan over the records. *)
Lemma max_from_better (others : list sales_row) (best : sales_row) :
  max_from total_revenue (Spec.revenue_entry_of best) (Spec.revenue best)
           (map Spec.revenue_entry_of others)
  = Spec.revenue_entry_of (fold_left Spec.better others best).
Proof.
  revert best. induction others as [|item others IH]; intros best; simpl.
  - reflexivity.
  - unfold fgt, Spec.better at 2.
    destruct (flt (Spec.revenue best) (Spec.revenue item)); apply IH.
Qed.

Lemma max_top_record (records : list sales_row) :
  max total_revenue (map Spec.revenue_entry_of records)
  = Spec.revenue_entry_of <$> Spec.top_record records.
Proof.
  destruct records as [|first others]; simpl.
  - reflexivity.
  - f_equal. apply max_from_better.
Qed.

(** The scan keeps the first record among those of maximal revenue. *)
Lemma scan_first_maximum (others : list sales_row) (first : sales_row) :
  Forall (fun item => is_nan (Spec.revenue item) = false) (first :: others) ->
  let top := fold_left Spec.better others first in
  exists k : nat,
    (first :: others) !! k = Some top /\
    Forall (fun item => fle (Spec.revenue item) (Spec.revenue top) = true)
           (first :: others) /\
    Forall (fun earlier => flt (Spec.revenue earlier) (Spec.revenue top) = true)
           (take k (first :: others)).
Proof.
  induction others as [|item others IH] using rev_ind; intros Hnan; simpl.
  - exists 0%nat. repeat split.
    + constructor; [|constructor]. apply fle_refl. by inversion Hnan.
    + constructor.
  - rewrite fold_left_app. simpl.
    rewrite app_comm_cons in Hnan. apply Forall_app in Hnan as [Hnan Hitem].
    rewrite Forall_singleton in Hitem.
    destruct (IH Hnan) as (k & Hk & Hmax & Hfirst). clear IH.
    set (top := fold_left Spec.better others first) in *.
    assert (Htop : is_nan (Spec.revenue top) = false).
    { eapply Forall_lookup_1 in Hnan; [exact Hnan | exact Hk]. }
    unfold Spec.better.
    destruct (flt (Spec.revenue top) (Spec.revenue item)) eqn:Hlt.
    + exists (length (first :: others)). rewrite app_comm_cons. repeat split.
      * rewrite lookup_app_r by lia. by rewrite Nat.sub_diag.
      * apply Forall_app. split.
        -- eapply Forall_impl; [exact Hmax|]. intros x Hx. simpl in Hx.
           apply flt_fle. eapply fle_flt_trans; eauto.
        -- apply Forall_singleton. apply fle_refl. exact Hitem.
      * rewrite take_app_length.
        eapply Forall_impl; [exact Hmax|]. intros x Hx. simpl in Hx.
        eapply fle_flt_trans; eauto.
    + exists k. rewrite app_comm_cons.
      assert (Hlen : (k < length (first :: others))%nat).
      { eapply lookup_lt_Some; eauto. }
      repeat split.
      * rewrite lookup_app_l by exact Hlen. exact Hk.
      * apply Forall_app. split; [exact Hmax|].
        apply Forall_singleton. apply fle_total; [exact Htop | exact Hitem | exact Hlt].
      * rewrite take_app_le by lia. exact Hfirst.
Qed.

Lemma find_top_product_fits (self : analyzer) :
  data self <> [] ->
  Forall fits (data self) ->
  let top := Spec.revenue_entry_of <$> Spec.top_record (data self) in
  Claude.find_top_product self = (Ret top, set_top_product self top, []) /\
  Gpt41.find_top_product self = (Ret top, set_top_product self top, []).
Proof.
  intros Hne Hfit. unfold Claude.find_top_product, Gpt41.find_top_product.
  rewrite (collect_entry_fits _ Hfit), max_top_record.
  destruct (data self); [contradiction|]. split; reflexivity.
Qed.

(** C1, as stated, fails on two loaded collections in which A (10 x 1) and
    B (5 x 2) share the revenue 10 and no record has a greater one.  After
    them comes C (0 x 10^400): [price * quantity] cannot convert the
    quantity, and [find_top_product] raises [OverflowError] and returns no
    record.  Before them comes N ([inf] x 0): its revenue is NaN, no later
    revenue compares greater than it, and [find_top_product] returns N. *)
Lemma find_top_product_tie_not_returned :
  (let loaded := Claude.load_data tie_then_huge_file (init "sales_data.csv") in
   loaded.1.1 = true /\
   Gpt41.load_data tie_then_huge_file (init "sales_data.csv") = loaded /\
   data loaded.1.2
   = [ {| product_name := "A"; price := ten; quantity := 1 |};
       {| product_name := "B"; price := five; quantity := 2 |};
       {| product_name := "C"; price := pos_zero; quantity := 10 ^ 400 |} ] /\
   map revenue (data loaded.1.2) = [Ret ten; Ret ten; Raise OverflowError] /\
   Claude.find_top_product loaded.1.2 = (Raise OverflowError, loaded.1.2, []) /\
   Gpt41.find_top_product loaded.1.2 = (Raise OverflowError, loaded.1.2, [])) /\
  (let loaded := Claude.load_data inf_then_tie_file (init "sales_data.csv") in
   loaded.1.1 = true /\
   Gpt41.load_data inf_then_tie_file (init "sales_data.csv") = loaded /\
   map product_name (data loaded.1.2) = ["N"; "A"; "B"] /\
   map revenue (data loaded.1.2) = [Ret nan; Ret ten; Ret ten] /\
   (Claude.find_top_product loaded.1.2).1.1
   = Ret (Some {| entry_product_name := "N"; entry_price := S754_infinity false;
                  entry_quantity := 0; total_revenue := nan |}) /\
   Gpt41.find_top_product loaded.1.2 = Claude.find_top_product loaded.1.2).
Proof.
  vm_compute. repeat split; reflexivity.
Qed.

(** C1 (amended). Whenever every revenue [price * quantity] of the
    collection is defined (the quantity converts to a float) and the
    collection has a maximum revenue [m], attained by one record or shared
    by several and with every revenue [<= m], so that none is NaN,
    [find_top_product] (both variants) returns the entry of a record that
    attains it and before which every record has a strictly smaller
    revenue, that is, the first of those sharing the maximum in load order;
    and that record is the one the reference scan selects (left to right,
    replacing the best only on a strictly greater revenue, never on an
    equal one). *)
Theorem find_top_product_first_maximum (self : analyzer) (i : nat)
    (best : sales_row) (m : float) :
  data self !! i = Some best ->
  revenue best = Ret m ->
  Forall (fun item => exists r, revenue item = Ret r /\ fle r m = true) (data self) ->
  exists (k : nat) (top : sales_row) (r : float),
    data self !! k = Some top /\
    revenue top = Ret r /\
    feq r m = true /\
    Forall (fun earlier => exists r', revenue earlier = Ret r' /\ flt r' r = true)
           (take k (data self)) /\
    Spec.top_record (data self) = Some top /\
    let entry := {| entry_product_name := product_name top;
                    entry_price := price top;
                    entry_quantity := quantity top;
                    total_revenue := r |} in
    Claude.find_top_product self
    = (Ret (Some entry), set_top_product self (Some entry), []) /\
    Gpt41.find_top_product self
    = (Ret (Some entry), set_top_product self (Some entry), []).
Proof.
  intros Hi Hm Hbest.
  assert (Hfit : Forall fits (data self)).
  { eapply Forall_impl; [exact Hbest|]. intros x (r & Hr & _).
    apply (revenue_ret _ _ Hr). }
  assert (Hle : Forall (fun item => fle (Spec.revenue item) m = true) (data self)).
  { eapply Forall_impl; [exact Hbest|]. intros x (r & Hr & Hx).
    destruct (revenue_ret _ _ Hr) as [_ ->]. exact Hx. }
  assert (Hne : data self <> []).
  { intros Hempty. rewrite Hempty in Hi. discriminate. }
  destruct (find_top_product_fits self Hne Hfit) as [Hclaude Hgpt].
  destruct (data self) as [|first others] eqn:Hdata; [contradiction|].
  assert (Hnan : Forall (fun item => is_nan (Spec.revenue item) = false)
                        (first :: others)).
  { eapply Forall_impl; [exact Hle|]. intros x Hx. apply (fle_not_nan _ _ Hx). }
  destruct (scan_first_maximum others first Hnan) as (k & Hk & Hmax & Hfirst).
  set (top := fold_left Spec.better others first) in *.
  exists k, top, (Spec.revenue top).
  split; [exact Hk|].
  split. { apply revenue_fits. exact (Forall_lookup_1 _ _ _ _ Hfit Hk). }
  split.
  { apply fle_antisym.
    - exact (Forall_lookup_1 _ _ _ _ Hle Hk).
    - destruct (revenue_ret _ _ Hm) as [_ <-].
      exact (Forall_lookup_1 _ _ _ _ Hmax Hi). }
  split.
  { apply Forall_forall. intros earlier Hin.
    exists (Spec.revenue earlier). split.
    - apply revenue_fits. rewrite Forall_forall in Hfit. apply Hfit.
      exact (subseteq_take _ _ _ Hin).
    - rewrite Forall_forall in Hfirst. exact (Hfirst _ Hin). }
  split; [reflexivity|]. split; [exact Hclaude | exact Hgpt].
Qed.

Lemma find_top_product_first_maximum_witness :
  exists (k : nat) (top : sales_row) (r : float),
    data tie_analyzer !! k = Some top /\
    revenue top = Ret r /\
    feq r ten = true /\
    Forall (fun earlier => exists r', revenue earlier = Ret r' /\ flt r' r = true)
           (take k (data tie_analyzer)) /\
    Spec.top_record (data tie_analyzer) = Some top /\
    let entry := {| entry_product_name := product_name top;
                    entry_price := price top;
                    entry_quantity := quantity top;
                    total_revenue := r |} in
    Claude.find_top_product tie_analyzer
    = (Ret (Some entry), set_top_product tie_analyzer (Some entry), []) /\
    Gpt41.find_top_product tie_analyzer
    = (Ret (Some entry), set_top_product tie_analyzer (Some entry), []).
Proof.
  apply (find_top_product_first_maximum tie_analyzer 1
           {| product_name := "B"; price := five; quantity := 2 |} ten).
  - reflexivity.
  - reflexivity.
  - repeat (constructor; [eexists; split; reflexivity|]). constructor.
Defined.

(** Section 8: of [("A",10,1), ("B",5,2)], both of revenue 10, the top
    product is A. *)
Example tie_goes_to_first :
  (Claude.find_top_product tie_analyzer).1.1
  = Ret (Some {| entry_product_name := "A"; entry_price := ten;
                 entry_quantity := 1; total_revenue := ten |})
  /\ (Gpt41.find_top_product tie_analyzer).1.1
     = (Claude.find_top_product tie_analyzer).1.1.
Proof. split; vm_compute; reflexivity. Qed.

(** ** Total revenue *)

Lemma collect_revenue_overflow (items : list sales_row) :
  ~ Forall fits items -> collect revenue items = Raise OverflowError.
Proof.
  induction items as [|item items IH]; intros Hnot; simpl.
  - exfalso. apply Hnot. constructor.
  - destruct (int_fits_float (quantity item)) eqn:Hitem.
    + rewrite (revenue_fits item Hitem), IH; [reflexivity|].
      intros Hrest. apply Hnot. constructor; assumption.
    + rewrite revenue_overflow; [reflexivity|].
      unfold fits. rewrite Hitem. discriminate.
Qed.

(** C2, as stated, fails: the row [A,1,1000...0] (400 zeros) passes the
    loader, the load succeeds with one record, and [calculate_total_sales]
    raises [OverflowError] instead of returning the sum. *)
Lemma calculate_total_sales_overflow :
  let loaded := Claude.load_data huge_quantity_file (init "sales_data.csv") in
  loaded.1.1 = true /\
  data loaded.1.2 = [ {| product_name := "A"; price := one; quantity := 10 ^ 400 |} ] /\
  Gpt41.load_data huge_quantity_file (init "sales_data.csv") = loaded /\
  (forall impl, (Claude.calculate_total_sales impl loaded.1.2).1.1 = Raise OverflowError) /\
  (forall impl, (Gpt41.calculate_total_sales impl loaded.1.2).1.1 = Raise OverflowError).
Proof.
  vm_compute. repeat split; reflexivity.
Qed.

(** C2 (amended). On a non-empty collection in which every quantity converts
    to a float, [calculate_total_sales] (both variants) returns the float sum
    of [price * quantity] over every record, as [sum] accumulates it and with
    nothing rounded in between, and stores it in [total_sales]; when some
    quantity does not convert, the call raises [OverflowError] and leaves the
    object as it was. *)
Theorem calculate_total_sales_sum (impl : sum_impl) (self : analyzer) :
  data self <> [] ->
  (Forall fits (data self) ->
   Claude.calculate_total_sales impl self
   = (Ret (Spec.total impl (data self)),
      set_total_sales self (Spec.total impl (data self)), []) /\
   Gpt41.calculate_total_sales impl self
   = (Ret (Spec.total impl (data self)),
      set_total_sales self (Spec.total impl (data self)), [])) /\
  (~ Forall fits (data self) ->
   Claude.calculate_total_sales impl self = (Raise OverflowError, self, []) /\
   Gpt41.calculate_total_sales impl self = (Raise OverflowError, self, [])).
Proof.
  intros Hne.
  unfold Claude.calculate_total_sales, Gpt41.calculate_total_sales, Spec.total.
  split; intros Hfit.
  - rewrite (collect_revenue_fits _ Hfit).
    destruct (data self); [contradiction|]. split; reflexivity.
  - rewrite (collect_revenue_overflow _ Hfit).
    destruct (data self); [contradiction|]. split; reflexivity.
Qed.

Lemma calculate_total_sales_sum_witness :
  Claude.calculate_total_sales PlainSum tie_analyzer
  = (Ret (Spec.total PlainSum tie_data),
     set_total_sales tie_analyzer (Spec.total PlainSum tie_data), []) /\
  Gpt41.calculate_total_sales PlainSum tie_analyzer
  = (Ret (Spec.total PlainSum tie_data),
     set_total_sales tie_analyzer (Spec.total PlainSum tie_data), []).
Proof.
  apply (calculate_total_sales_sum PlainSum tie_analyzer).
  - discriminate.
  - repeat constructor.
Defined.

(** ** Empty collection *)

(** C4, as stated, fails: on a fresh analyzer, whose collection is empty,
    neither method raises; they return [0.0] and [None]. *)
Lemma empty_collection_not_rejected :
  let fresh := init "sales_data.csv" in
  (Claude.calculate_total_sales PlainSum fresh).1.1 = Ret pos_zero /\
  (Claude.find_top_product fresh).1.1 = Ret None /\
  (Gpt41.calculate_total_sales PlainSum fresh).1.1 = Ret pos_zero /\
  (Gpt41.find_top_product fresh).1.1 = Ret None /\
  ~ (exists e, (Claude.calculate_total_sales PlainSum fresh).1.1 = Raise e) /\
  ~ (exists e, (Gpt41.find_top_product fresh).1.1 = Raise e).
Proof.
  simpl. repeat split; try reflexivity; intros [e He]; discriminate.
Qed.

(** C4 (amended). On an empty collection [calculate_total_sales] prints the
    no-data error line and returns [0.0], and [find_top_product] prints the
    same line and returns [None]; neither raises and neither changes the
    object. *)
Theorem empty_collection_default (impl : sum_impl) (self : analyzer) :
  data self = [] ->
  Claude.calculate_total_sales impl self = (Ret pos_zero, self, [NoDataLine]) /\
  Claude.find_top_product self = (Ret None, self, [NoDataLine]) /\
  Gpt41.calculate_total_sales impl self = (Ret pos_zero, self, [NoDataLine]) /\
  Gpt41.find_top_product self = (Ret None, self, [NoDataLine]).
Proof.
  intros Hempty.
  unfold Claude.calculate_total_sales, Claude.find_top_product,
    Gpt41.calculate_total_sales, Gpt41.find_top_product.
  rewrite Hempty. repeat split.
Qed.

Lemma empty_collection_default_witness :
  Claude.calculate_total_sales NeumaierSum (init "sales_data.csv")
  = (Ret pos_zero, init "sales_data.csv", [NoDataLine]) /\
  Claude.find_top_product (init "sales_data.csv")
  = (Ret None, init "sales_data.csv", [NoDataLine]) /\
  Gpt41.calculate_total_sales NeumaierSum (init "sales_data.csv")
  = (Ret pos_zero, init "sales_data.csv", [NoDataLine]) /\
  Gpt41.find_top_product (init "sales_data.csv")
  = (Ret None, init "sales_data.csv", [NoDataLine]).
Proof.
  apply (empty_collection_default NeumaierSum (init "sales_data.csv")).
  reflexivity.
Defined.

(** ** Purity of the aggregator *)

Lemma calculate_total_sales_keeps_data (self : analyzer) (impl : sum_impl) :
  data (Claude.calculate_total_sales impl self).1.2 = data self /\
  top_product (Claude.calculate_total_sales impl self).1.2 = top_product self.
Proof.
  unfold Claude.calculate_total_sales.
  destruct (data self) as [|item items] eqn:Hdata; [simpl; auto|].
  destruct (collect revenue (item :: items)); simpl; auto.
Qed.

Lemma find_top_product_keeps_data (self : analyzer) :
  data (Claude.find_top_product self).1.2 = data self /\
  total_sales (Claude.find_top_product self).1.2 = total_sales self.
Proof.
  unfold Claude.find_top_product.
  destruct (data self) as [|item items] eqn:Hdata; [simpl; auto|].
  destruct (collect entry_of (item :: items)); simpl; auto.
Qed.

(** Both methods read nothing of the object but [data]. *)
Lemma calculate_total_sales_reads_data (impl : sum_impl) (a b : analyzer) :
  data a = data b ->
  (Claude.calculate_total_sales impl a).1.1 = (Claude.calculate_total_sales impl b).1.1 /\
  (Claude.calculate_total_sales impl a).2 = (Claude.calculate_total_sales impl b).2.
Proof.
  intros Hdata. unfold Claude.calculate_total_sales. rewrite Hdata.
  destruct (data b) as [|item items]; [auto|].
  destruct (collect revenue (item :: items)); auto.
Qed.

Lemma find_top_product_reads_data (a b : analyzer) :
  data a = data b ->
  (Claude.find_top_product a).1.1 = (Claude.find_top_product b).1.1 /\
  (Claude.find_top_product a).2 = (Claude.find_top_product b).2.
Proof.
  intros Hdata. unfold Claude.find_top_product. rewrite Hdata.
  destruct (data b) as [|item items]; [auto|].
  destruct (collect entry_of (item :: items)); auto.
Qed.

(** The aggregation code of the two files differs in names only. *)
Lemma variants_agree_aux (impl : sum_impl) (self : analyzer) :
  Gpt41.calculate_total_sales impl self = Claude.calculate_total_sales impl self /\
  Gpt41.find_top_product self = Claude.find_top_product self.
Proof. split; reflexivity. Qed.

(** C10. The aggregation methods of the two variants are equal as functions
    of the object: same value or exception, same object afterwards, same
    lines printed; on the empty collection that is [0.0], respectively
    [None], with the no-data line. *)
Theorem variants_aggregate_alike (impl : sum_impl) (self : analyzer) :
  Claude.calculate_total_sales impl self = Gpt41.calculate_total_sales impl self /\
  Claude.find_top_product self = Gpt41.find_top_product self /\
  Claude.calculate_total_sales impl (set_data self [])
  = (Ret pos_zero, set_data self [], [NoDataLine]) /\
  Gpt41.calculate_total_sales impl (set_data self [])
  = (Ret pos_zero, set_data self [], [NoDataLine]) /\
  Claude.find_top_product (set_data self []) = (Ret None, set_data self [], [NoDataLine]) /\
  Gpt41.find_top_product (set_data self []) = (Ret None, set_data self [], [NoDataLine]).
Proof.
  repeat split.
Qed.

(** C8. Neither method changes [data]; a second call right after the first
    returns the same value, prints the same lines and leaves the same
    object; and a call of the other method in between changes nothing of
    the result. *)
Theorem aggregation_is_repeatable (impl : sum_impl) (self : analyzer) :
  let total1 := Claude.calculate_total_sales impl self in
  let top1 := Claude.find_top_product self in
  let total1' := Gpt41.calculate_total_sales impl self in
  let top1' := Gpt41.find_top_product self in
  (data total1.1.2 = data self /\ data top1.1.2 = data self /\
   Claude.calculate_total_sales impl total1.1.2 = total1 /\
   Claude.find_top_product top1.1.2 = top1 /\
   (Claude.calculate_total_sales impl top1.1.2).1.1 = total1.1.1 /\
   (Claude.find_top_product total1.1.2).1.1 = top1.1.1) /\
  (data total1'.1.2 = data self /\ data top1'.1.2 = data self /\
   Gpt41.calculate_total_sales impl total1'.1.2 = total1' /\
   Gpt41.find_top_product top1'.1.2 = top1' /\
   (Gpt41.calculate_total_sales impl top1'.1.2).1.1 = total1'.1.1 /\
   (Gpt41.find_top_product total1'.1.2).1.1 = top1'.1.1).
Proof.
  assert (Hclaude :
    let total1 := Claude.calculate_total_sales impl self in
    let top1 := Claude.find_top_product self in
    data total1.1.2 = data self /\ data top1.1.2 = data self /\
    Claude.calculate_total_sales impl total1.1.2 = total1 /\
    Claude.find_top_product top1.1.2 = top1 /\
    (Claude.calculate_total_sales impl top1.1.2).1.1 = total1.1.1 /\
    (Claude.find_top_product total1.1.2).1.1 = top1.1.1).
  { intros total1 top1.
    destruct (calculate_total_sales_keeps_data self impl) as [Hd1 _].
    destruct (find_top_product_keeps_data self) as [Hd2 _].
    split; [exact Hd1|]. split; [exact Hd2|].
    split; [|split; [|split]].
    - subst total1. unfold Claude.calculate_total_sales.
      destruct (data self) as [|item items] eqn:Hdata; [simpl; by rewrite Hdata|].
      destruct (collect revenue (item :: items)) eqn:Hrev;
        cbn [fst snd data set_total_sales]; rewrite Hdata, Hrev; reflexivity.
    - subst top1. unfold Claude.find_top_product.
      destruct (data self) as [|item items] eqn:Hdata; [simpl; by rewrite Hdata|].
      destruct (collect entry_of (item :: items)) eqn:Hent;
        cbn [fst snd data set_top_product]; rewrite Hdata, Hent; reflexivity.
    - apply calculate_total_sales_reads_data. exact Hd2.
    - apply find_top_product_reads_data. exact Hd1. }
  split; [exact Hclaude|].
  destruct (variants_agree_aux impl self) as [H1 H2].
  rewrite H1, H2. exact Hclaude.
Qed.

(** ** The loader against the five checks of section 4.1 *)

Lemma same_diagnostic_record n code spec :
  same_diagnostic n code spec -> same_record code spec.
Proof.
  destruct code as [l|a], spec as [why|b]; simpl; auto.
  destruct l; simpl; intros H; try reflexivity; discriminate.
Qed.

Lemma or_empty_get (row : dict) (key : string) :
  or_empty (get row key None) = Spec.field row key.
Proof. unfold get, Spec.field. destruct (row !! key) as [[text|]|]; reflexivity. Qed.

Lemma get_present (row : dict) (key : string) :
  present row key = true -> get row key (Some "") = Some (Spec.field row key).
Proof.
  unfold present, get, Spec.field.
  destruct (row !! key) as [[text|]|]; intros H; try reflexivity; discriminate.
Qed.

Lemma gpt41_load_row_spec (n : Z) (row : dict) :
  same_diagnostic n (Gpt41.load_row n row) (Spec.validate_row row).
Proof.
  unfold Gpt41.load_row, Spec.validate_row, Spec.validate.
  rewrite !or_empty_get.
  destruct (String.eqb _ ""); [reflexivity|].
  destruct (float_of_string _) as [p|]; [|reflexivity].
  destruct (int_of_string _) as [q|]; [|reflexivity].
  destruct (flt p pos_zero); [reflexivity|].
  destruct (q <? 0); reflexivity.
Qed.

Lemma claude_load_row_spec (n : Z) (row : dict) :
  complete row = true ->
  same_diagnostic n (Claude.load_row n row) (Spec.validate_row row).
Proof.
  unfold complete. intros Hrow.
  apply andb_prop in Hrow as [Hrow Hquantity].
  apply andb_prop in Hrow as [Hname Hprice].
  unfold Claude.load_row.
  rewrite (get_present _ _ Hname), (get_present _ _ Hprice),
    (get_present _ _ Hquantity).
  unfold Spec.validate_row, Spec.validate.
  destruct (String.eqb _ ""); [reflexivity|].
  destruct (float_of_string _) as [p|]; [|reflexivity].
  destruct (int_of_string _) as [q|]; [|reflexivity].
  destruct (flt p pos_zero); [reflexivity|].
  destruct (q <? 0); reflexivity.
Qed.

(** A row with a [None] field is skipped by both: the program on
    [AttributeError], the five checks on the empty text. *)
Lemma claude_load_row_record (n : Z) (row : dict) :
  same_record (Claude.load_row n row) (Spec.validate_row row).
Proof.
  destruct (complete row) eqn:Hrow.
  { apply (same_diagnostic_record n), claude_load_row_spec, Hrow. }
  unfold Claude.load_row, Spec.validate_row, Spec.validate, Spec.field, get,
    complete, present in *.
  destruct (row !! "product_name") as [[name|]|];
    destruct (row !! "price") as [[price_text|]|];
    destruct (row !! "quantity") as [[quantity_text|]|];
    try discriminate Hrow; simpl;
    repeat match goal with
           | |- context [String.eqb ?a ?b] => destruct (String.eqb a b)
           | |- context [float_of_string ?a] => destruct (float_of_string a)
           | |- context [int_of_string ?a] => destruct (int_of_string a)
           end; simpl; try reflexivity; try discriminate.
Qed.

Lemma load_rows_records (body : Z -> dict -> row_result) (rows : list dict) :
  Forall (fun row => forall n, same_record (body n row) (Spec.validate_row row)) rows ->
  forall (n : Z) (acc : list sales_row),
    (load_rows body n rows acc).1 = acc ++ (Spec.load n rows).1 /\
    Forall (fun l => is_row_line l = true) (load_rows body n rows acc).2.
Proof.
  induction 1 as [|row rows Hrow _ IH]; intros n acc; simpl.
  - rewrite app_nil_r. split; [reflexivity|constructor].
  - specialize (Hrow n). unfold same_record in Hrow.
    destruct (Spec.load (n + 1) rows) as [records diagnostics] eqn:Hspec.
    destruct (body n row) as [l|a], (Spec.validate_row row) as [why|b];
      try contradiction.
    + destruct (IH (n + 1) acc) as [IH1 IH2]. rewrite Hspec in IH1.
      destruct (load_rows body (n + 1) rows acc) as [d out]. simpl in *.
      split; [exact IH1|]. constructor; assumption.
    + subst b. destruct (IH (n + 1) (acc ++ [a])) as [IH1 IH2].
      rewrite Hspec in IH1. simpl in *. rewrite IH1, <- app_assoc.
      split; [reflexivity|exact IH2].
Qed.

Lemma load_rows_spec (body : Z -> dict -> row_result) (rows : list dict) :
  Forall (fun row => forall n, same_diagnostic n (body n row) (Spec.validate_row row))
         rows ->
  forall (n : Z) (acc : list sales_row),
    (load_rows body n rows acc).1 = acc ++ (Spec.load n rows).1 /\
    map Spec.diagnostic_of (load_rows body n rows acc).2
    = map Some (Spec.load n rows).2.
Proof.
  induction 1 as [|row rows Hrow _ IH]; intros n acc; simpl.
  - rewrite app_nil_r. split; reflexivity.
  - specialize (Hrow n). unfold same_diagnostic in Hrow.
    destruct (Spec.load (n + 1) rows) as [records diagnostics] eqn:Hspec.
    destruct (body n row) as [l|a], (Spec.validate_row row) as [why|b];
      try contradiction.
    + destruct (IH (n + 1) acc) as [IH1 IH2]. rewrite Hspec in IH1, IH2.
      destruct (load_rows body (n + 1) rows acc) as [d out]. simpl in *.
      split; [exact IH1|]. rewrite Hrow, IH2. reflexivity.
    + subst b. destruct (IH (n + 1) (acc ++ [a])) as [IH1 IH2].
      rewrite Hspec in IH1, IH2. simpl in *. rewrite IH1, <- app_assoc.
      split; [reflexivity|exact IH2].
Qed.

Lemma claude_load_data_opened fs self r header body :
  fs (filename self) = Opened r ->
  reader_rows r = header :: body ->
  Claude.header_rejected (Some header) = false ->
  Claude.load_data fs self
  = finish_load (set_data self []) (reader_fault r)
      (load_rows Claude.load_row 2 (dict_rows header body) []).
Proof.
  intros Hfs Hrows Hheader. unfold Claude.load_data.
  rewrite Hfs, Hrows, Hheader. reflexivity.
Qed.

Lemma gpt41_load_data_opened fs self r header body :
  fs (filename self) = Opened r ->
  reader_rows r = header :: body ->
  Gpt41.header_rejected (Some header) = false ->
  Gpt41.load_data fs self
  = finish_load (set_data self []) (reader_fault r)
      (load_rows Gpt41.load_row 2 (dict_rows header body) []).
Proof.
  intros Hfs Hrows Hheader. unfold Gpt41.load_data.
  rewrite Hfs, Hrows, Hheader. reflexivity.
Qed.

(** The loop, row by row: the records kept and the lines printed are those
    of the outcomes of the rows in order, the row at index [i] being
    numbered [n + i]. *)
Lemma load_rows_results (body : Z -> dict -> row_result) (rows : list dict) :
  forall (n : Z) (acc : list sales_row),
    load_rows body n rows acc
    = (acc ++ kept (row_results body n rows), printed (row_results body n rows)).
Proof.
  induction rows as [|row rows IH]; intros n acc; simpl.
  - rewrite app_nil_r. reflexivity.
  - unfold kept, printed. simpl. destruct (body n row) as [l|record]; simpl.
    + rewrite IH. reflexivity.
    + rewrite IH, <- app_assoc. reflexivity.
Qed.

Lemma row_results_length (body : Z -> dict -> row_result) (rows : list dict) (n : Z) :
  length (row_results body n rows) = length rows.
Proof.
  revert n. induction rows as [|row rows IH]; intros n; simpl; [reflexivity|].
  f_equal. apply IH.
Qed.

Lemma row_results_lookup (body : Z -> dict -> row_result) (rows : list dict)
    (n : Z) (i : nat) (row : dict) :
  rows !! i = Some row ->
  row_results body n rows !! i = Some (body (n + Z.of_nat i) row).
Proof.
  revert n i. induction rows as [|first rows IH]; intros n i; [discriminate|].
  destruct i as [|i]; simpl.
  - intros [= ->]. rewrite Z.add_0_r. reflexivity.
  - intros Hrow. rewrite (IH (n + 1) i Hrow). do 2 f_equal. lia.
Qed.

(** A row with a [None] field never reaches the checks in
    [analyzer_claude.py]. *)
Lemma claude_load_row_short (n : Z) (row : dict) :
  complete row = false ->
  Claude.load_row n row = inl (UnexpectedRowLine n AttributeError).
Proof.
  unfold complete, present, Claude.load_row, get.
  destruct (row !! "product_name") as [[name|]|];
    destruct (row !! "price") as [[price_text|]|];
    destruct (row !! "quantity") as [[quantity_text|]|];
    simpl; intros H; try discriminate H; reflexivity.
Qed.

(** C6, as stated, fails on [analyzer_claude.py]: for the line [,5] the
    first check (empty product name) fails, and the line the program prints
    for row 2 names an unexpected error instead. *)
Lemma claude_short_row_diagnostic :
  let rows := dict_rows columns [[""; "5"]] in
  Spec.load 2 rows = ([], [(2, Spec.EmptyProductName)]) /\
  Claude.load_data short_row_file (init "sales_data.csv")
  = (false, init "sales_data.csv",
     [UnexpectedRowLine 2 AttributeError; NoValidRowsLine]) /\
  map Spec.diagnostic_of (load_rows Claude.load_row 2 rows []).2
  <> map Some (Spec.load 2 rows).2.
Proof.
  vm_compute. repeat split; try reflexivity. discriminate.
Qed.

(** C6 (amended). Once the header is accepted, [load_data] numbers the data
    rows from 2 and, row by row, applies the five checks in the order empty
    trimmed name, unparseable price, unparseable quantity, negative price,
    negative quantity: the records kept are those passing all five, in
    order, and the line printed for a skipped row names its position and the
    first failing check.  [analyzer_gpt-4-1.py] does so for every row.
    [analyzer_claude.py] does so for every row none of whose three fields is
    absent, wherever the row stands in the file: each row has one outcome,
    the row at index [i] is numbered [2 + i] whatever the rows before it
    were, a row with an absent field is skipped with the unexpected-error
    line of its own number, and the records and the lines are the outcomes
    in order. *)
Theorem load_data_validation_order (fs : file_system) (self : analyzer)
    (r : reader) (header : list string) (body : list (list string)) :
  fs (filename self) = Opened r ->
  reader_rows r = header :: body ->
  let rows := dict_rows header body in
  (Gpt41.header_rejected (Some header) = false ->
   exists lines : list line,
     Gpt41.load_data fs self
     = finish_load (set_data self []) (reader_fault r) ((Spec.load 2 rows).1, lines) /\
     map Spec.diagnostic_of lines = map Some (Spec.load 2 rows).2) /\
  (Claude.header_rejected (Some header) = false ->
   exists results : list row_result,
     Claude.load_data fs self
     = finish_load (set_data self []) (reader_fault r)
         ((Spec.load 2 rows).1, printed results) /\
     kept results = (Spec.load 2 rows).1 /\
     length results = length rows /\
     (forall (i : nat) (row : dict),
        rows !! i = Some row ->
        exists result : row_result,
          results !! i = Some result /\
          if complete row
          then same_diagnostic (2 + Z.of_nat i) result (Spec.validate_row row)
          else result = inl (UnexpectedRowLine (2 + Z.of_nat i) AttributeError)) /\
     (Forall (fun row => complete row = true) rows ->
      map Spec.diagnostic_of (printed results) = map Some (Spec.load 2 rows).2)).
Proof.
  intros Hfs Hrows rows. split.
  - intros Hheader.
    rewrite (gpt41_load_data_opened _ _ _ _ _ Hfs Hrows Hheader). fold rows.
    destruct (load_rows_spec Gpt41.load_row rows) with (n := 2) (acc := @nil sales_row)
      as [Hrecords Hlines].
    { apply Forall_forall. intros row _ n. apply gpt41_load_row_spec. }
    exists (load_rows Gpt41.load_row 2 rows []).2. split; [|exact Hlines].
    f_equal. simpl in Hrecords. rewrite <- Hrecords.
    destruct (load_rows Gpt41.load_row 2 rows []); reflexivity.
  - intros Hheader.
    rewrite (claude_load_data_opened _ _ _ _ _ Hfs Hrows Hheader). fold rows.
    pose proof (load_rows_results Claude.load_row rows 2 []) as Hloop.
    destruct (load_rows_records Claude.load_row rows) with (n := 2) (acc := @nil sales_row)
      as [Hrecords _].
    { apply Forall_forall. intros row _ n. apply claude_load_row_record. }
    rewrite Hloop in Hrecords. simpl in Hrecords, Hloop.
    exists (row_results Claude.load_row 2 rows).
    split; [rewrite Hloop, Hrecords; reflexivity|].
    split; [exact Hrecords|].
    split; [apply row_results_length|].
    split.
    + intros i row Hrow. exists (Claude.load_row (2 + Z.of_nat i) row).
      split; [apply row_results_lookup, Hrow|].
      destruct (complete row) eqn:Hcomplete.
      * apply claude_load_row_spec, Hcomplete.
      * apply claude_load_row_short, Hcomplete.
    + intros Hcomplete.
      destruct (load_rows_spec Claude.load_row rows) with (n := 2) (acc := @nil sales_row)
        as [_ Hlines].
      { eapply Forall_impl; [exact Hcomplete|]. intros row Hrow n.
        apply claude_load_row_spec, Hrow. }
      rewrite Hloop in Hlines. exact Hlines.
Qed.

Lemma load_data_validation_order_witness :
  let rows := dict_rows columns after_short_rows in
  (exists lines : list line,
     Gpt41.load_data after_short_file (init "sales_data.csv")
     = finish_load (set_data (init "sales_data.csv") []) None ((Spec.load 2 rows).1, lines) /\
     map Spec.diagnostic_of lines = map Some (Spec.load 2 rows).2) /\
  (exists results : list row_result,
     Claude.load_data after_short_file (init "sales_data.csv")
     = finish_load (set_data (init "sales_data.csv") []) None
         ((Spec.load 2 rows).1, printed results) /\
     kept results = (Spec.load 2 rows).1 /\
     length results = length rows /\
     (forall (i : nat) (row : dict),
        rows !! i = Some row ->
        exists result : row_result,
          results !! i = Some result /\
          if complete row
          then same_diagnostic (2 + Z.of_nat i) result (Spec.validate_row row)
          else result = inl (UnexpectedRowLine (2 + Z.of_nat i) AttributeError)) /\
     (Forall (fun row => complete row = true) rows ->
      map Spec.diagnostic_of (printed results) = map Some (Spec.load 2 rows).2)).
Proof.
  intros rows.
  destruct (load_data_validation_order after_short_file (init "sales_data.csv")
              after_short_reader columns after_short_rows eq_refl eq_refl)
    as [Hgpt Hclaude].
  split.
  - apply Hgpt. reflexivity.
  - apply Hclaude. reflexivity.
Defined.

(** The rows after a short line keep their numbers: the unparseable price
    after the line [,5] is reported for row 3 by both variants. *)
Example rows_after_a_short_row :
  Claude.load_data after_short_file (init "sales_data.csv")
  = (true,
     set_data (init "sales_data.csv")
       [ {| product_name := "A"; price := ten; quantity := 2 |} ],
     [UnexpectedRowLine 2 AttributeError; BadPriceLine 3 "x"]) /\
  Gpt41.load_data after_short_file (init "sales_data.csv")
  = (true,
     set_data (init "sales_data.csv")
       [ {| product_name := "A"; price := ten; quantity := 2 |} ],
     [EmptyNameLine 2; BadPriceLine 3 "x"]).
Proof. vm_compute. split; reflexivity. Qed.

(** Section 8: that file yields exactly the record (A, 10, 2), total 20.0
    and top product A, and the three skipped rows are reported as rows 3, 4
    and 5. *)
Example section8_load :
  Claude.main PlainSum section8_file = Gpt41.main PlainSum section8_file /\
  Claude.main NeumaierSum section8_file = Claude.main PlainSum section8_file /\
  let '(_, self, out) := Claude.main PlainSum section8_file in
  data self = [ {| product_name := "A"; price := ten; quantity := 2 |} ] /\
  float_of_string "20.0" = Some (total_sales self) /\
  entry_product_name <$> top_product self = Some "A" /\
  take 3 out = [NegativeQuantityLine 3 (-1); EmptyNameLine 4; BadPriceLine 5 "x"].
Proof. vm_compute. repeat split; reflexivity. Qed.

(** ** Failed loads *)

Lemma row_line_not_schema (lines : list line) :
  Forall (fun l => is_row_line l = true) lines -> SchemaLine ∉ lines.
Proof.
  intros Hlines Hin. rewrite Forall_forall in Hlines.
  specialize (Hlines _ Hin). discriminate.
Qed.

(** C7. When the header is accepted and no row passes the five checks,
    [load_data] (both variants) returns [False] with an empty collection.
    The lines it prints are row lines followed by one last line, the
    no-valid-rows warning (or, when the reader broke off, the line of the
    outer handler); the schema error line is not among them.  The
    [__main__] block then prints the failure line and returns without
    calling the aggregation methods: [total_sales] and [top_product] are as
    [__init__] left them. *)
Theorem no_valid_rows_fails_load (impl : sum_impl) (fs : file_system)
    (self : analyzer) (r : reader) (header : list string)
    (body : list (list string)) :
  fs (filename self) = Opened r ->
  reader_rows r = header :: body ->
  (Spec.load 2 (dict_rows header body)).1 = [] ->
  let last :=
    match reader_fault r with
    | None => NoValidRowsLine
    | Some e => handler_line (filename self) e
    end in
  (Claude.header_rejected (Some header) = false ->
   exists lines : list line,
     Claude.load_data fs self = (false, set_data self [], lines ++ [last]) /\
     Forall (fun l => is_row_line l = true) lines /\
     (SchemaLine ∉ lines ++ [last]) /\
     (self = init "sales_data.csv" ->
      Claude.main impl fs
      = (Ret tt, init "sales_data.csv", lines ++ [last; FailedLine]))) /\
  (Gpt41.header_rejected (Some header) = false ->
   exists lines : list line,
     Gpt41.load_data fs self = (false, set_data self [], lines ++ [last]) /\
     Forall (fun l => is_row_line l = true) lines /\
     (SchemaLine ∉ lines ++ [last]) /\
     (self = init "sales_data.csv" ->
      Gpt41.main impl fs
      = (Ret tt, init "sales_data.csv", lines ++ [last; FailedLine]))).
Proof.
  intros Hfs Hrows Hnone last.
  assert (Hlast : last <> SchemaLine).
  { subst last. destruct (reader_fault r) as [[]|]; discriminate. }
  split; intros Hheader.
  - pose proof (claude_load_data_opened _ _ _ _ _ Hfs Hrows Hheader) as Hload.
    destruct (load_rows_records Claude.load_row (dict_rows header body))
      with (n := 2) (acc := @nil sales_row) as [Hrecords Hlines].
    { apply Forall_forall. intros row _ n. apply claude_load_row_record. }
    rewrite Hnone in Hrecords. simpl in Hrecords.
    destruct (load_rows Claude.load_row 2 (dict_rows header body) []) as [d lines].
    simpl in Hrecords, Hlines. subst d.
    assert (Hfinish : Claude.load_data fs self
                      = (false, set_data self [], lines ++ [last])).
    { rewrite Hload. subst last. unfold finish_load.
      destruct (reader_fault r); reflexivity. }
    exists lines. split; [exact Hfinish|]. split; [exact Hlines|]. split.
    + intros Hin. apply elem_of_app in Hin as [Hin|Hin].
      * exact (row_line_not_schema _ Hlines Hin).
      * apply list_elem_of_singleton in Hin. congruence.
    + intros ->. unfold Claude.main. rewrite Hfinish. simpl.
      rewrite <- app_assoc. reflexivity.
  - pose proof (gpt41_load_data_opened _ _ _ _ _ Hfs Hrows Hheader) as Hload.
    destruct (load_rows_records Gpt41.load_row (dict_rows header body))
      with (n := 2) (acc := @nil sales_row) as [Hrecords Hlines].
    { apply Forall_forall. intros row _ n.
      apply (same_diagnostic_record n), gpt41_load_row_spec. }
    rewrite Hnone in Hrecords. simpl in Hrecords.
    destruct (load_rows Gpt41.load_row 2 (dict_rows header body) []) as [d lines].
    simpl in Hrecords, Hlines. subst d.
    assert (Hfinish : Gpt41.load_data fs self
                      = (false, set_data self [], lines ++ [last])).
    { rewrite Hload. subst last. unfold finish_load.
      destruct (reader_fault r); reflexivity. }
    exists lines. split; [exact Hfinish|]. split; [exact Hlines|]. split.
    + intros Hin. apply elem_of_app in Hin as [Hin|Hin].
      * exact (row_line_not_schema _ Hlines Hin).
      * apply list_elem_of_singleton in Hin. congruence.
    + intros ->. unfold Gpt41.main. rewrite Hfinish. simpl.
      rewrite <- app_assoc. reflexivity.
Qed.

Lemma no_valid_rows_fails_load_witness :
  (exists lines : list line,
     Claude.load_data negative_prices_file (init "sales_data.csv")
     = (false, set_data (init "sales_data.csv") [], lines ++ [NoValidRowsLine]) /\
     Forall (fun l => is_row_line l = true) lines /\
     (SchemaLine ∉ lines ++ [NoValidRowsLine]) /\
     (init "sales_data.csv" = init "sales_data.csv" ->
      Claude.main PlainSum negative_prices_file
      = (Ret tt, init "sales_data.csv", lines ++ [NoValidRowsLine; FailedLine]))) /\
  (exists lines : list line,
     Gpt41.load_data negative_prices_file (init "sales_data.csv")
     = (false, set_data (init "sales_data.csv") [], lines ++ [NoValidRowsLine]) /\
     Forall (fun l => is_row_line l = true) lines /\
     (SchemaLine ∉ lines ++ [NoValidRowsLine]) /\
     (init "sales_data.csv" = init "sales_data.csv" ->
      Gpt41.main PlainSum negative_prices_file
      = (Ret tt, init "sales_data.csv", lines ++ [NoValidRowsLine; FailedLine]))).
Proof.
  destruct (no_valid_rows_fails_load PlainSum negative_prices_file
              (init "sales_data.csv") negative_prices_reader columns negative_prices
              eq_refl eq_refl)
    as [Hclaude Hgpt].
  - vm_compute. reflexivity.
  - split; [apply Hclaude | apply Hgpt]; reflexivity.
Defined.

(** Section 8: a file of negative prices fails with the no-valid-rows
    warning, a file without the [product_name] column with the schema error. *)
Example all_rows_invalid :
  Claude.load_data negative_prices_file (init "sales_data.csv")
  = (false, init "sales_data.csv",
     [NegativePriceLine 2 (SFopp ten); NegativePriceLine 3 (SFopp five);
      NoValidRowsLine]) /\
  Claude.load_data (file_of [["price"; "quantity"]; ["10"; "2"]]) (init "sales_data.csv")
  = (false, init "sales_data.csv", [SchemaLine]).
Proof. vm_compute. split; reflexivity. Qed.

(** ** What a loaded record satisfies *)

(** [strip] leaves a stripped text as it is. *)
Lemma lstrip_clean_head (sp : ascii -> bool) (s : string) :
  clean_head sp (lstrip_with sp s).
Proof.
  induction s as [|c s IH]; simpl; [exact I|].
  destruct (sp c) eqn:Hc; [exact IH | exact Hc].
Qed.

Lemma rstrip_clean_head (sp : ascii -> bool) (s : string) :
  clean_head sp s -> clean_head sp (rstrip_with sp s).
Proof.
  destruct s as [|c s]; simpl; [auto|]. intros Hc.
  destruct (rstrip_with sp s); [rewrite Hc|]; exact Hc.
Qed.

Lemma lstrip_of_clean_head (sp : ascii -> bool) (s : string) :
  clean_head sp s -> lstrip_with sp s = s.
Proof. destruct s as [|c s]; simpl; [auto|]. intros ->. reflexivity. Qed.

Lemma rstrip_idempotent (sp : ascii -> bool) (s : string) :
  rstrip_with sp (rstrip_with sp s) = rstrip_with sp s.
Proof.
  induction s as [|c s IH]; simpl; [reflexivity|].
  destruct (rstrip_with sp s) as [|c' t] eqn:Ht.
  - destruct (sp c) eqn:Hc; simpl; [reflexivity|]. rewrite Hc. reflexivity.
  - change (rstrip_with sp (String c (String c' t)))
      with (match rstrip_with sp (String c' t) with
            | EmptyString => if sp c then EmptyString else String c EmptyString
            | u => String c u
            end).
    rewrite IH. reflexivity.
Qed.

Lemma strip_idempotent (s : string) : strip (strip s) = strip s.
Proof.
  unfold strip, strip_with.
  rewrite (lstrip_of_clean_head isspace (rstrip_with isspace (lstrip_with isspace s))).
  - apply rstrip_idempotent.
  - apply rstrip_clean_head, lstrip_clean_head.
Qed.

Lemma validate_checked (name_field price_field quantity_field : string)
    (record : sales_row) :
  Spec.validate name_field price_field quantity_field = inr record ->
  checked record.
Proof.
  unfold Spec.validate, checked.
  destruct (String.eqb (strip name_field) "") eqn:Hname; [discriminate|].
  destruct (float_of_string _) as [p|]; [|discriminate].
  destruct (int_of_string _) as [q|]; [|discriminate].
  destruct (flt p pos_zero) eqn:Hprice; [discriminate|].
  destruct (q <? 0) eqn:Hquantity; [discriminate|].
  intros [= <-]. simpl. repeat split.
  - intros Hempty. rewrite Hempty in Hname. discriminate.
  - apply strip_idempotent.
  - exact Hprice.
  - lia.
Qed.

Lemma spec_load_checked (rows : list dict) (n : Z) :
  Forall checked (Spec.load n rows).1.
Proof.
  revert n. induction rows as [|row rows IH]; intros n; simpl.
  - constructor.
  - specialize (IH (n + 1)).
    destruct (Spec.load (n + 1) rows) as [records diagnostics].
    destruct (Spec.validate_row row) as [why|record] eqn:Hrow; simpl in *.
    + exact IH.
    + constructor; [|exact IH]. eapply validate_checked. exact Hrow.
Qed.

Lemma finish_load_checked self fault loaded :
  Forall checked loaded.1 ->
  Forall checked (data (finish_load self fault loaded).1.2).
Proof.
  destruct loaded as [d out]. unfold finish_load. simpl.
  destruct fault; [auto|]. destruct d; auto.
Qed.

(** Whatever the file, the records [load_data] leaves in [data] passed the
    five checks. *)
Lemma load_data_checked (fs : file_system) (self : analyzer) :
  fs (filename self) <> Missing ->
  Forall checked (data (Claude.load_data fs self).1.2) /\
  Forall checked (data (Gpt41.load_data fs self).1.2).
Proof.
  intros Hfs. unfold Claude.load_data, Gpt41.load_data.
  destruct (fs (filename self)) as [|e|r]; [contradiction| |].
  - split; constructor.
  - destruct (reader_rows r) as [|header body].
    { destruct (reader_fault r); split; constructor. }
    split.
    + destruct (Claude.header_rejected (Some header)); [constructor|].
      apply finish_load_checked.
      destruct (load_rows_records Claude.load_row (dict_rows header body))
        with (n := 2) (acc := @nil sales_row) as [-> _].
      { apply Forall_forall. intros row _ n. apply claude_load_row_record. }
      apply spec_load_checked.
    + destruct (Gpt41.header_rejected (Some header)); [constructor|].
      apply finish_load_checked.
      destruct (load_rows_records Gpt41.load_row (dict_rows header body))
        with (n := 2) (acc := @nil sales_row) as [-> _].
      { apply Forall_forall. intros row _ n.
        apply (same_diagnostic_record n), gpt41_load_row_spec. }
      apply spec_load_checked.
Qed.

(** C3 at the input [A,nan,1]: [float("nan")] parses and [nan < 0] is
    false, so the load succeeds and keeps a record whose price is NaN, for
    which [price >= 0] is false. *)
Theorem nan_price_is_retained :
  let record := {| product_name := "A"; price := nan; quantity := 1 |} in
  Claude.load_data nan_price_file (init "sales_data.csv")
  = (true, set_data (init "sales_data.csv") [record], []) /\
  Gpt41.load_data nan_price_file (init "sales_data.csv")
  = (true, set_data (init "sales_data.csv") [record], []) /\
  fle pos_zero (price record) = false.
Proof. vm_compute. repeat split; reflexivity. Qed.

(** ** The header *)

(** [analyzer_gpt-4-1.py] rejects every header that lacks one of the three
    columns, before any row is read. *)
Lemma gpt41_schema_error (fs : file_system) (self : analyzer) (r : reader)
    (header : list string) (body : list (list string)) (column : string) :
  fs (filename self) = Opened r ->
  reader_rows r = header :: body ->
  column ∈ Gpt41.expected ->
  column ∉ header ->
  Gpt41.load_data fs self = (false, set_data self [], [SchemaLine]).
Proof.
  intros Hfs Hrows Hcolumn Hlacks. unfold Gpt41.load_data.
  rewrite Hfs, Hrows.
  assert (Hrejected : Gpt41.header_rejected (Some header) = true).
  { unfold Gpt41.header_rejected. apply negb_true_iff.
    apply not_true_is_false. intros Hall.
    rewrite forallb_forall in Hall.
    apply list_elem_of_In in Hcolumn. specialize (Hall _ Hcolumn).
    apply bool_decide_eq_true in Hall. contradiction. }
  rewrite Hrejected. reflexivity.
Qed.

(** Both variants reject a file with no header line. *)
Lemma no_header_schema_error (fs : file_system) (self : analyzer) (r : reader) :
  fs (filename self) = Opened r ->
  reader_rows r = [] ->
  reader_fault r = None ->
  Claude.load_data fs self = (false, set_data self [], [SchemaLine]) /\
  Gpt41.load_data fs self = (false, set_data self [], [SchemaLine]).
Proof.
  intros Hfs Hrows Hfault. unfold Claude.load_data, Gpt41.load_data.
  rewrite Hfs, Hrows, Hfault. split; reflexivity.
Qed.

(** [analyzer_claude.py] rejects a header without [product_name]. *)
Lemma claude_schema_error (fs : file_system) (self : analyzer) (r : reader)
    (header : list string) (body : list (list string)) :
  fs (filename self) = Opened r ->
  reader_rows r = header :: body ->
  "product_name" ∉ header ->
  Claude.load_data fs self = (false, set_data self [], [SchemaLine]).
Proof.
  intros Hfs Hrows Hlacks. unfold Claude.load_data.
  rewrite Hfs, Hrows. unfold Claude.header_rejected.
  rewrite bool_decide_eq_false_2 by exact Hlacks. reflexivity.
Qed.

(** C5 at a header without [price]: [analyzer_claude.py] tests the header
    for [product_name] alone, so it goes on to row 2, reports its price as
    not a number and ends with the no-valid-rows warning; the schema error,
    whose text names all three columns, is not printed.
    [analyzer_gpt-4-1.py] prints it and reads no row. *)
Theorem claude_accepts_header_without_price :
  Claude.load_data no_price_file (init "sales_data.csv")
  = (false, init "sales_data.csv", [BadPriceLine 2 ""; NoValidRowsLine]) /\
  Gpt41.load_data no_price_file (init "sales_data.csv")
  = (false, init "sales_data.csv", [SchemaLine]).
Proof. vm_compute. split; reflexivity. Qed.

(** ** A file that is not there *)

(** C9. When the file does not exist [load_data] returns [False] and leaves
    the object, [data] included, as it was, so that the aggregation methods
    then answer from the records of an earlier load; in every other case
    the outcome is that of the same call on an object whose [data] has first
    been emptied. *)
Theorem missing_file_keeps_data (impl : sum_impl) (fs : file_system)
    (self : analyzer) :
  match fs (filename self) with
  | Missing =>
      Claude.load_data fs self = (false, self, [NotFoundLine (filename self)]) /\
      Gpt41.load_data fs self = (false, self, [NotFoundLine (filename self)]) /\
      Claude.calculate_total_sales impl (Claude.load_data fs self).1.2
      = Claude.calculate_total_sales impl self /\
      Claude.find_top_product (Claude.load_data fs self).1.2
      = Claude.find_top_product self /\
      Gpt41.calculate_total_sales impl (Gpt41.load_data fs self).1.2
      = Gpt41.calculate_total_sales impl self /\
      Gpt41.find_top_product (Gpt41.load_data fs self).1.2
      = Gpt41.find_top_product self
  | _ =>
      Claude.load_data fs self = Claude.load_data fs (set_data self []) /\
      Gpt41.load_data fs self = Gpt41.load_data fs (set_data self [])
  end.
Proof.
  unfold Claude.load_data, Gpt41.load_data.
  change (filename (set_data self [])) with (filename self).
  destruct (fs (filename self)) as [|e|r]; repeat split.
Qed.

(** An analyzer that holds the two records of an earlier load, asked to load
    a file that is gone: the load fails and the total is still 20.0. *)
Example stale_total :
  let gone : file_system := fun _ => Missing in
  let '(ok, self, out) := Claude.load_data gone tie_analyzer in
  ok = false /\ data self = tie_data /\
  out = [NotFoundLine "sales_data.csv"] /\
  Some (Claude.calculate_total_sales PlainSum self).1.1
  = Ret <$> float_of_string "20.0".
Proof. vm_compute. repeat split; reflexivity. Qed.

(** ** Facts about both [load_data] at once *)

Lemma claude_load_shape :
  Claude.load_data = load_shape Claude.header_rejected Claude.load_row.
Proof. reflexivity. Qed.

Lemma gpt41_load_shape :
  Gpt41.load_data = load_shape Gpt41.header_rejected Gpt41.load_row.
Proof. reflexivity. Qed.

Lemma gpt41_load_row_record (n : Z) (row : dict) :
  same_record (Gpt41.load_row n row) (Spec.validate_row row).
Proof. apply (same_diagnostic_record n), gpt41_load_row_spec. Qed.

Lemma handler_line_failure (name : string) (e : exn) :
  is_failure_line (handler_line name e) = true.
Proof. destruct e; reflexivity. Qed.

Section LoadShape.

Variable rejected : option (list string) -> bool.
Variable body : Z -> dict -> row_result.
Hypothesis body_record :
  forall n row, same_record (body n row) (Spec.validate_row row).

Lemma shape_load_rows (n : Z) (rows : list dict) (acc : list sales_row) :
  (load_rows body n rows acc).1 = acc ++ (Spec.load n rows).1 /\
  Forall (fun l => is_row_line l = true) (load_rows body n rows acc).2.
Proof.
  apply load_rows_records. apply Forall_forall. intros row _ m. apply body_record.
Qed.

(** The object after [finish_load] and whether it reports success. *)
Lemma finish_load_result (self : analyzer) (fault : option exn)
    (d : list sales_row) (out : list line) :
  (finish_load self fault (d, out)).1
  = (match fault, d with None, _ :: _ => true | _, _ => false end, set_data self d).
Proof. unfold finish_load. destruct fault, d; reflexivity. Qed.

Lemma finish_load_lines (self : analyzer) (fault : option exn)
    (d : list sales_row) (out : list line) :
  (finish_load self fault (d, out)).2
  = match fault, d with
    | Some e, _ => out ++ [handler_line (filename self) e]
    | None, [] => out ++ [NoValidRowsLine]
    | None, _ :: _ => out
    end.
Proof. unfold finish_load. destruct fault, d; reflexivity. Qed.

(** A load that returns [True] read an opened file to its end, accepted its
    header, kept at least one record, all of them checked, and printed
    nothing but row lines. *)
Lemma shape_success (fs : file_system) (self : analyzer) :
  (load_shape rejected body fs self).1.1 = true ->
  data (load_shape rejected body fs self).1.2 <> [] /\
  Forall checked (data (load_shape rejected body fs self).1.2) /\
  Forall (fun l => is_row_line l = true) (load_shape rejected body fs self).2 /\
  exists r header rest,
    fs (filename self) = Opened r /\ reader_rows r = header :: rest /\
    reader_fault r = None /\ rejected (Some header) = false.
Proof.
  unfold load_shape.
  destruct (fs (filename self)) as [|e|r] eqn:Hfs; [discriminate..|].
  destruct (reader_rows r) as [|header rest] eqn:Hrows.
  { destruct (reader_fault r); discriminate. }
  destruct (rejected (Some header)) eqn:Hheader; [discriminate|].
  destruct (shape_load_rows 2 (dict_rows header rest) []) as [Hrecords Hlines].
  destruct (load_rows body 2 (dict_rows header rest) []) as [d out].
  simpl in Hrecords, Hlines.
  rewrite finish_load_result, finish_load_lines. simpl.
  destruct (reader_fault r) as [e|] eqn:Hfault; [discriminate|].
  destruct d as [|record d]; [discriminate|]. intros _.
  split; [discriminate|]. split.
  { rewrite Hrecords. apply spec_load_checked. }
  split; [exact Hlines|].
  exists r, header, rest. auto.
Qed.

(** A load that returns [False] ends its output with one line that says why;
    the lines before it are row lines. *)
Lemma shape_failure (fs : file_system) (self : analyzer) :
  (load_shape rejected body fs self).1.1 = false ->
  exists (lines : list line) (final : line),
    (load_shape rejected body fs self).2 = lines ++ [final] /\
    is_failure_line final = true /\
    Forall (fun l => is_row_line l = true) lines.
Proof.
  unfold load_shape.
  destruct (fs (filename self)) as [|e|r] eqn:Hfs.
  { intros _. exists [], (NotFoundLine (filename self)). repeat split. constructor. }
  { intros _. exists [], (handler_line (filename self) e).
    split; [reflexivity|]. split; [apply handler_line_failure|constructor]. }
  destruct (reader_rows r) as [|header rest] eqn:Hrows.
  { destruct (reader_fault r) as [e|]; intros _.
    - exists [], (handler_line (filename self) e).
      split; [reflexivity|]. split; [apply handler_line_failure|constructor].
    - exists [], SchemaLine. repeat split. constructor. }
  destruct (rejected (Some header)) eqn:Hheader.
  { intros _. exists [], SchemaLine. repeat split. constructor. }
  destruct (shape_load_rows 2 (dict_rows header rest) []) as [_ Hlines].
  destruct (load_rows body 2 (dict_rows header rest) []) as [d out].
  simpl in Hlines.
  rewrite finish_load_result, finish_load_lines. simpl.
  destruct (reader_fault r) as [e|].
  { intros _. exists out, (handler_line (filename self) e).
    split; [reflexivity|]. split; [apply handler_line_failure|exact Hlines]. }
  destruct d as [|record d]; [|discriminate].
  intros _. exists out, NoValidRowsLine. repeat split. exact Hlines.
Qed.

(** [load_data] writes [data] and nothing else of the object. *)
Lemma shape_keeps_aggregates (fs : file_system) (self : analyzer) :
  let after := (load_shape rejected body fs self).1.2 in
  filename after = filename self /\
  total_sales after = total_sales self /\
  top_product after = top_product self.
Proof.
  unfold load_shape.
  destruct (fs (filename self)) as [|e|r]; [repeat split..|].
  destruct (reader_rows r) as [|header rest].
  { destruct (reader_fault r); repeat split. }
  destruct (rejected (Some header)); [repeat split|].
  destruct (load_rows body 2 (dict_rows header rest) []) as [d out].
  rewrite finish_load_result. repeat split.
Qed.

End LoadShape.

(** ** [DictReader] rows by name *)

Lemma insert_texts_absent (pairs : list (string * string)) (d : dict) (k : string) :
  k ∉ pairs.*1 ->
  fold_left (fun (d : dict) (kv : string * string) => <[kv.1 := Some kv.2]> d) pairs d !! k
  = d !! k.
Proof.
  revert d. induction pairs as [|[k' v'] pairs IH]; intros d Hk; simpl.
  - reflexivity.
  - simpl in Hk. apply not_elem_of_cons in Hk as [Hne Hk].
    rewrite IH by exact Hk. apply lookup_insert_ne. congruence.
Qed.

Lemma insert_texts_present (pairs : list (string * string)) (d : dict)
    (i : nat) (k v : string) :
  NoDup pairs.*1 ->
  pairs !! i = Some (k, v) ->
  fold_left (fun (d : dict) (kv : string * string) => <[kv.1 := Some kv.2]> d) pairs d !! k
  = Some (Some v).
Proof.
  revert d i. induction pairs as [|[k' v'] pairs IH]; intros d i Hdup Hi; simpl.
  - discriminate.
  - simpl in Hdup. apply NoDup_cons in Hdup as [Hfresh Hdup].
    destruct i as [|i]; simpl in Hi.
    + injection Hi as -> ->.
      rewrite insert_texts_absent by exact Hfresh. apply lookup_insert_eq.
    + eapply IH; eauto.
Qed.

Lemma insert_nones_absent (keys : list string) (d : dict) (k : string) :
  k ∉ keys ->
  fold_left (fun (d : dict) (k : string) => <[k := None]> d) keys d !! k = d !! k.
Proof.
  revert d. induction keys as [|k' keys IH]; intros d Hk; simpl.
  - reflexivity.
  - apply not_elem_of_cons in Hk as [Hne Hk].
    rewrite IH by exact Hk. apply lookup_insert_ne. congruence.
Qed.

Lemma insert_nones_present (keys : list string) (d : dict) (k : string) :
  k ∈ keys ->
  fold_left (fun (d : dict) (k : string) => <[k := None]> d) keys d !! k = Some None.
Proof.
  revert d. induction keys as [|k' keys IH]; intros d Hk; simpl.
  - apply elem_of_nil in Hk. contradiction.
  - destruct (decide (k ∈ keys)) as [Hin|Hout].
    + apply IH. exact Hin.
    + apply elem_of_cons in Hk as [->|Hin]; [|contradiction].
      rewrite insert_nones_absent by exact Hout. apply lookup_insert_eq.
Qed.

Lemma zip_names (names row : list string) :
  (zip names row).*1 = take (length row) names.
Proof.
  revert row. induction names as [|name names IH]; intros [|field row]; simpl;
    try reflexivity.
  f_equal. apply IH.
Qed.

(** A name that is not in the header is not a key of the row. *)
Lemma dict_row_absent (names row : list string) (k : string) :
  k ∉ names -> dict_row names row !! k = None.
Proof.
  intros Hk. unfold dict_row.
  rewrite insert_nones_absent.
  - rewrite insert_texts_absent; [apply lookup_empty|].
    rewrite zip_names. intros Hin. apply Hk. exact (subseteq_take _ _ _ Hin).
  - intros Hin. apply Hk. exact (subseteq_drop _ _ _ Hin).
Qed.

(** Under a header without repeated names, the key at column [i] holds the
    field at position [i] of the line. *)
Lemma dict_row_field (names row : list string) (i : nat) (k v : string) :
  NoDup names ->
  names !! i = Some k ->
  row !! i = Some v ->
  dict_row names row !! k = Some (Some v).
Proof.
  intros Hdup Hk Hv. unfold dict_row.
  assert (Hi : (i < length row)%nat) by (eapply lookup_lt_Some; eauto).
  rewrite <- (take_drop (length row) names) in Hdup.
  apply NoDup_app in Hdup as (Htake & Hdisjoint & _).
  rewrite insert_nones_absent.
  - apply (insert_texts_present _ _ i).
    + rewrite zip_names. exact Htake.
    + apply lookup_zip_with_Some. exists k, v. auto.
  - apply Hdisjoint. apply list_elem_of_lookup. exists i.
    rewrite lookup_take_lt by exact Hi. exact Hk.
Qed.

(** And [None] when the line does not reach column [i]. *)
Lemma dict_row_short (names row : list string) (i : nat) (k : string) :
  names !! i = Some k ->
  (length row <= i)%nat ->
  dict_row names row !! k = Some None.
Proof.
  intros Hk Hi. unfold dict_row. apply insert_nones_present.
  apply list_elem_of_lookup. exists (i - length row)%nat.
  rewrite lookup_drop. rewrite <- Hk. f_equal. lia.
Qed.

(** ** The two variants side by side *)

Lemma gpt41_header_accepted (header : list string) :
  Gpt41.header_rejected (Some header) = false <->
  "product_name" ∈ header /\ "price" ∈ header /\ "quantity" ∈ header.
Proof.
  unfold Gpt41.header_rejected, Gpt41.expected. simpl.
  rewrite negb_false_iff, !andb_true_iff, !bool_decide_eq_true. tauto.
Qed.

Lemma claude_header_accepted (header : list string) :
  Claude.header_rejected (Some header) = false <-> "product_name" ∈ header.
Proof.
  unfold Claude.header_rejected.
  rewrite negb_false_iff, bool_decide_eq_true. tauto.
Qed.

(** A row without a price or without a quantity fails one of the first
    three checks. *)
Lemma validate_row_lacking (row : dict) :
  row !! "price" = None \/ row !! "quantity" = None ->
  exists why, Spec.validate_row row = inl why.
Proof.
  unfold Spec.validate_row, Spec.validate, Spec.field.
  intros [Hlacks|Hlacks]; rewrite Hlacks.
  - destruct (String.eqb _ ""); [eauto|].
    change (float_of_string (strip "")) with (@None float). eauto.
  - destruct (String.eqb _ ""); [eauto|].
    destruct (float_of_string _); [|eauto].
    change (int_of_string (strip "")) with (@None Z). eauto.
Qed.

Lemma spec_load_none (rows : list dict) (n : Z) :
  Forall (fun row => exists why, Spec.validate_row row = inl why) rows ->
  (Spec.load n rows).1 = [].
Proof.
  intros Hrows. revert n. induction Hrows as [|row rows [why Hrow] _ IH]; intros n; simpl.
  - reflexivity.
  - specialize (IH (n + 1)). destruct (Spec.load (n + 1) rows) as [records diagnostics].
    rewrite Hrow. exact IH.
Qed.

Lemma lacking_column_no_record (header : list string) (rest : list (list string)) (n : Z) :
  "price" ∉ header \/ "quantity" ∉ header ->
  (Spec.load n (dict_rows header rest)).1 = [].
Proof.
  intros Hlacks. apply spec_load_none. unfold dict_rows.
  apply Forall_forall. intros row Hrow.
  apply list_elem_of_In, in_map_iff in Hrow as (fields & <- & _).
  apply validate_row_lacking.
  destruct Hlacks as [H|H]; [left|right]; apply dict_row_absent, H.
Qed.

Lemma load_row_complete (n : Z) (row : dict) :
  complete row = true -> Claude.load_row n row = Gpt41.load_row n row.
Proof.
  unfold complete. intros Hrow.
  apply andb_prop in Hrow as [Hrow Hquantity].
  apply andb_prop in Hrow as [Hname Hprice].
  unfold Claude.load_row, Gpt41.load_row.
  rewrite (get_present _ _ Hname), (get_present _ _ Hprice),
    (get_present _ _ Hquantity), !or_empty_get.
  reflexivity.
Qed.

Lemma load_rows_ext (body1 body2 : Z -> dict -> row_result) (rows : list dict) :
  Forall (fun row => forall n, body1 n row = body2 n row) rows ->
  forall n acc, load_rows body1 n rows acc = load_rows body2 n rows acc.
Proof.
  induction 1 as [|row rows Hrow _ IH]; intros n acc; simpl.
  - reflexivity.
  - rewrite Hrow. destruct (body2 n row); rewrite IH; reflexivity.
Qed.

(** X4. Whenever the file looks the same through the handle of
    [analyzer_claude.py] ([translated]) and through that of
    [analyzer_gpt-4-1.py] ([untranslated]), that is, the path is missing for
    both, fails to open alike for both, or gives both readers the same rows
    and the same end, the two [load_data] return the same truth value and
    leave the same object; only the lines they print can differ. *)
Theorem variants_load_alike (translated untranslated : file_system)
    (self : analyzer) :
  translated (filename self) = untranslated (filename self) ->
  (Claude.load_data translated self).1 = (Gpt41.load_data untranslated self).1.
Proof.
  intros Hsame. unfold Claude.load_data, Gpt41.load_data. rewrite Hsame.
  destruct (untranslated (filename self)) as [|e|r]; [reflexivity..|].
  destruct (reader_rows r) as [|header rest].
  { destruct (reader_fault r); reflexivity. }
  destruct (shape_load_rows Claude.load_row claude_load_row_record 2
              (dict_rows header rest) []) as [Hclaude _].
  destruct (shape_load_rows Gpt41.load_row gpt41_load_row_record 2
              (dict_rows header rest) []) as [Hgpt _].
  destruct (load_rows Claude.load_row 2 (dict_rows header rest) []) as [d1 out1].
  destruct (load_rows Gpt41.load_row 2 (dict_rows header rest) []) as [d2 out2].
  simpl in Hclaude, Hgpt.
  destruct (Claude.header_rejected (Some header)) eqn:Hc,
    (Gpt41.header_rejected (Some header)) eqn:Hg.
  - reflexivity.
  - exfalso. apply gpt41_header_accepted in Hg as [Hname _].
    apply claude_header_accepted in Hname. congruence.
  - assert (Hnone : d1 = []).
    { rewrite Hclaude. apply lacking_column_no_record.
      apply claude_header_accepted in Hc.
      destruct (decide ("price" ∈ header)) as [Hprice|]; [|auto].
      destruct (decide ("quantity" ∈ header)) as [Hquantity|]; [|auto].
      exfalso. assert (Gpt41.header_rejected (Some header) = false)
        by (apply gpt41_header_accepted; auto). congruence. }
    rewrite finish_load_result, Hnone. destruct (reader_fault r); reflexivity.
  - rewrite !finish_load_result, Hclaude, Hgpt. reflexivity.
Qed.

Lemma variants_load_alike_witness :
  (Claude.load_data section8_file (init "sales_data.csv")).1
  = (Gpt41.load_data (file_of (columns :: section8_rows)) (init "sales_data.csv")).1.
Proof.
  apply (variants_load_alike section8_file (file_of (columns :: section8_rows))
           (init "sales_data.csv")).
  reflexivity.
Defined.

(** The condition is needed: when a quoted name holds a carriage return, the
    handle of [analyzer_claude.py] hands it on as a line feed, that of
    [analyzer_gpt-4-1.py] as it is, and the two variants keep different
    names. *)
Example carriage_return_in_quotes :
  map product_name
      (data (Claude.load_data quoted_return_translated (init "sales_data.csv")).1.2)
  = [String "A" (String "010" "B")] /\
  map product_name
      (data (Gpt41.load_data quoted_return_untranslated (init "sales_data.csv")).1.2)
  = [String "A" (String "013" "B")].
Proof. vm_compute. split; reflexivity. Qed.

Lemma load_true_nonempty (fs : file_system) (self : analyzer) :
  (Gpt41.load_data fs self).1.1 = true -> data (Gpt41.load_data fs self).1.2 <> [].
Proof.
  rewrite gpt41_load_shape. intros Hok.
  apply (shape_success _ _ gpt41_load_row_record fs self Hok).
Qed.

Lemma collect_length {A B : Type} (f : A -> outcome B) (items : list A) (ys : list B) :
  collect f items = Ret ys -> length ys = length items.
Proof.
  revert ys. induction items as [|x items IH]; intros ys; simpl.
  - intros [= <-]. reflexivity.
  - destruct (f x); [|discriminate]. destruct (collect f items); [|discriminate].
    intros [= <-]. simpl. f_equal. apply IH. reflexivity.
Qed.

(** After a successful [find_top_product] on a non-empty collection
    [top_product] is set. *)
Lemma find_top_product_sets (self after : analyzer) (v : option revenue_entry)
    (out : list line) :
  data self <> [] ->
  Gpt41.find_top_product self = (Ret v, after, out) ->
  exists top, top_product after = Some top /\ v = Some top /\ out = [] /\
              total_sales after = total_sales self /\
              filename after = filename self.
Proof.
  unfold Gpt41.find_top_product. intros Hne.
  destruct (data self) as [|item items] eqn:Hdata; [contradiction|].
  destruct (collect entry_of (item :: items)) as [entries|e] eqn:Hentries;
    [|discriminate].
  apply collect_length in Hentries.
  destruct entries as [|entry entries]; [discriminate|].
  intros [= <- <- <-]. simpl. eauto 6.
Qed.

Lemma calculate_total_sales_ret (impl : sum_impl) (self after : analyzer)
    (v : float) (out : list line) :
  data self <> [] ->
  Gpt41.calculate_total_sales impl self = (Ret v, after, out) ->
  after = set_total_sales self v /\ out = [].
Proof.
  unfold Gpt41.calculate_total_sales. intros Hne.
  destruct (data self) as [|item items] eqn:Hdata; [contradiction|].
  destruct (collect revenue (item :: items)); [|discriminate].
  intros [= <- <- <-]. auto.
Qed.

(** The two [__main__] blocks do the same whenever the two [load_data] print
    the same. *)
Lemma mains_alike (impl : sum_impl) (fs1 fs : file_system) :
  Claude.load_data fs1 (init "sales_data.csv") = Gpt41.load_data fs (init "sales_data.csv") ->
  Claude.main impl fs1 = Gpt41.main impl fs.
Proof.
  intros Hload. unfold Claude.main, Gpt41.main. rewrite Hload.
  pose proof (load_true_nonempty fs (init "sales_data.csv")) as Hne.
  pose proof (shape_keeps_aggregates Gpt41.header_rejected Gpt41.load_row fs
                (init "sales_data.csv")) as (Hname & _).
  rewrite <- gpt41_load_shape in Hname.
  destruct (Gpt41.load_data fs (init "sales_data.csv")) as [[ok loaded] out1].
  destruct ok; [|reflexivity]. simpl in Hne, Hname. specialize (Hne eq_refl).
  destruct (variants_agree_aux impl loaded) as [<- _].
  destruct (Gpt41.calculate_total_sales impl loaded) as [[[v|e] a2] out2] eqn:Hcalc;
    [|reflexivity].
  destruct (calculate_total_sales_ret _ _ _ _ _ Hne Hcalc) as [-> ->].
  destruct (variants_agree_aux impl (set_total_sales loaded v)) as [_ <-].
  destruct (Gpt41.find_top_product (set_total_sales loaded v)) as [[[t|e] a3] out3] eqn:Htop;
    [|reflexivity].
  destruct (find_top_product_sets (set_total_sales loaded v) _ _ _ Hne Htop)
    as (top & Hset & _ & -> & _ & Hname3).
  unfold Claude.display_results. rewrite Hset, Hname3. simpl. rewrite Hname.
  reflexivity.
Qed.

(** X5. On a file that gives the readers of the two variants the same
    rows and the same end, whose header has the three columns and none of
    whose lines leaves one of the three fields out, the two [load_data] also
    print the same lines, and the two [__main__] blocks behave alike. *)
Theorem variants_print_alike (impl : sum_impl)
    (translated untranslated : file_system)
    (self : analyzer) (r : reader) (header : list string)
    (rest : list (list string)) :
  translated (filename self) = Opened r ->
  untranslated (filename self) = Opened r ->
  reader_rows r = header :: rest ->
  Gpt41.header_rejected (Some header) = false ->
  Forall (fun row => complete row = true) (dict_rows header rest) ->
  Claude.load_data translated self = Gpt41.load_data untranslated self /\
  (self = init "sales_data.csv" ->
   Claude.main impl translated = Gpt41.main impl untranslated).
Proof.
  intros Htranslated Huntranslated Hrows Hheader Hcomplete.
  assert (Hload : Claude.load_data translated self
                  = Gpt41.load_data untranslated self).
  { assert (Hc : Claude.header_rejected (Some header) = false).
    { apply claude_header_accepted. apply gpt41_header_accepted in Hheader. tauto. }
    rewrite (claude_load_data_opened _ _ _ _ _ Htranslated Hrows Hc),
      (gpt41_load_data_opened _ _ _ _ _ Huntranslated Hrows Hheader).
    f_equal. apply load_rows_ext.
    eapply Forall_impl; [exact Hcomplete|]. intros row Hrow n.
    apply load_row_complete, Hrow. }
  split; [exact Hload|]. intros ->. apply mains_alike, Hload.
Qed.

Lemma variants_print_alike_witness :
  Claude.load_data section8_file (init "sales_data.csv")
  = Gpt41.load_data (file_of (columns :: section8_rows)) (init "sales_data.csv") /\
  (init "sales_data.csv" = init "sales_data.csv" ->
   Claude.main PlainSum section8_file
   = Gpt41.main PlainSum (file_of (columns :: section8_rows))).
Proof.
  apply (variants_print_alike PlainSum section8_file
           (file_of (columns :: section8_rows)) (init "sales_data.csv")
           section8_reader columns section8_rows).
  - reflexivity.
  - reflexivity.
  - reflexivity.
  - reflexivity.
  - vm_compute. repeat constructor.
Defined.

(** ** What a call of [load_data] guarantees *)

(** X1. When [load_data] returns [True], the file was opened and read to
    its end, its header passed the test, [data] is not empty, every record
    in it passed the five checks, and nothing but row lines was printed. *)
Theorem load_data_success (fs : file_system) (self : analyzer) :
  ((Claude.load_data fs self).1.1 = true ->
   data (Claude.load_data fs self).1.2 <> [] /\
   Forall checked (data (Claude.load_data fs self).1.2) /\
   Forall (fun l => is_row_line l = true) (Claude.load_data fs self).2 /\
   exists r header rest,
     fs (filename self) = Opened r /\ reader_rows r = header :: rest /\
     reader_fault r = None /\ Claude.header_rejected (Some header) = false) /\
  ((Gpt41.load_data fs self).1.1 = true ->
   data (Gpt41.load_data fs self).1.2 <> [] /\
   Forall checked (data (Gpt41.load_data fs self).1.2) /\
   Forall (fun l => is_row_line l = true) (Gpt41.load_data fs self).2 /\
   exists r header rest,
     fs (filename self) = Opened r /\ reader_rows r = header :: rest /\
     reader_fault r = None /\ Gpt41.header_rejected (Some header) = false).
Proof.
  split.
  - rewrite claude_load_shape. apply shape_success, claude_load_row_record.
  - rewrite gpt41_load_shape. apply shape_success, gpt41_load_row_record.
Qed.

Lemma load_data_success_witness :
  (data (Claude.load_data section8_file (init "sales_data.csv")).1.2 <> [] /\
   Forall checked (data (Claude.load_data section8_file (init "sales_data.csv")).1.2) /\
   Forall (fun l => is_row_line l = true)
          (Claude.load_data section8_file (init "sales_data.csv")).2 /\
   exists r header rest,
     section8_file (filename (init "sales_data.csv")) = Opened r /\
     reader_rows r = header :: rest /\
     reader_fault r = None /\ Claude.header_rejected (Some header) = false) /\
  (data (Gpt41.load_data section8_file (init "sales_data.csv")).1.2 <> [] /\
   Forall checked (data (Gpt41.load_data section8_file (init "sales_data.csv")).1.2) /\
   Forall (fun l => is_row_line l = true)
          (Gpt41.load_data section8_file (init "sales_data.csv")).2 /\
   exists r header rest,
     section8_file (filename (init "sales_data.csv")) = Opened r /\
     reader_rows r = header :: rest /\
     reader_fault r = None /\ Gpt41.header_rejected (Some header) = false).
Proof.
  destruct (load_data_success section8_file (init "sales_data.csv")) as [Hclaude Hgpt].
  split; [apply Hclaude | apply Hgpt]; vm_compute; reflexivity.
Defined.



(** X3. [load_data] never writes [filename], [total_sales] or
    [top_product]: after a reload, failed or not, the total and the top
    product stored are still those computed from the earlier records, and
    [display_results] prints them again. *)
Theorem load_data_keeps_aggregates (fs : file_system) (self : analyzer) :
  (filename (Claude.load_data fs self).1.2 = filename self /\
   total_sales (Claude.load_data fs self).1.2 = total_sales self /\
   top_product (Claude.load_data fs self).1.2 = top_product self /\
   Claude.display_results (Claude.load_data fs self).1.2 = Claude.display_results self) /\
  (filename (Gpt41.load_data fs self).1.2 = filename self /\
   total_sales (Gpt41.load_data fs self).1.2 = total_sales self /\
   top_product (Gpt41.load_data fs self).1.2 = top_product self).
Proof.
  split.
  - rewrite claude_load_shape.
    destruct (shape_keeps_aggregates Claude.header_rejected Claude.load_row fs self)
      as (Hname & Htotal & Htop).
    repeat split; try assumption.
    unfold Claude.display_results. rewrite Hname, Htotal, Htop. reflexivity.
  - rewrite gpt41_load_shape.
    apply (shape_keeps_aggregates Gpt41.header_rejected Gpt41.load_row fs self).
Qed.

(** X6. When the reader breaks off after some rows, [load_data] returns
    [False] and yet leaves in [data] the records read until then: the
    object is the one a file ending at that point would leave, so a later
    [calculate_total_sales] answers from these records. *)
Theorem reader_fault_keeps_partial_data (impl : sum_impl) (self : analyzer)
    (rows : list (list string)) (e : exn) :
  let broken : file_system := fun _ =>
    Opened {| reader_rows := rows; reader_fault := Some e |} in
  let whole : file_system := fun _ =>
    Opened {| reader_rows := rows; reader_fault := None |} in
  ((Claude.load_data broken self).1.1 = false /\
   (Claude.load_data broken self).1.2 = (Claude.load_data whole self).1.2 /\
   Claude.calculate_total_sales impl (Claude.load_data broken self).1.2
   = Claude.calculate_total_sales impl (Claude.load_data whole self).1.2) /\
  ((Gpt41.load_data broken self).1.1 = false /\
   (Gpt41.load_data broken self).1.2 = (Gpt41.load_data whole self).1.2 /\
   Gpt41.calculate_total_sales impl (Gpt41.load_data broken self).1.2
   = Gpt41.calculate_total_sales impl (Gpt41.load_data whole self).1.2).
Proof.
  intros broken whole.
  assert (Hshape : forall rejected body,
    (load_shape rejected body broken self).1.1 = false /\
    (load_shape rejected body broken self).1.2 = (load_shape rejected body whole self).1.2).
  { intros rejected body. unfold load_shape, broken, whole. simpl.
    destruct rows as [|header rest]; [split; reflexivity|].
    destruct (rejected (Some header)); [split; reflexivity|].
    destruct (load_rows body 2 (dict_rows header rest) []) as [d out].
    rewrite !finish_load_result. split; [reflexivity|].
    destruct d; reflexivity. }
  split.
  - rewrite claude_load_shape.
    destruct (Hshape Claude.header_rejected Claude.load_row) as [Hok Hobject].
    rewrite Hobject. auto.
  - rewrite gpt41_load_shape.
    destruct (Hshape Gpt41.header_rejected Gpt41.load_row) as [Hok Hobject].
    rewrite Hobject. auto.
Qed.

(** A read error after the row [A,10,2]: the load fails and the total of
    the object is 20.0 all the same. *)
Example partial_data_total :
  let '(ok, self, out) := Claude.load_data (fun _ => Opened broken_reader)
                            (init "sales_data.csv") in
  ok = false /\
  data self = [ {| product_name := "A"; price := ten; quantity := 2 |} ] /\
  out = [UnexpectedErrorLine "sales_data.csv" (OSError "read error")] /\
  Some (Claude.calculate_total_sales PlainSum self).1.1
  = Ret <$> float_of_string "20.0".
Proof. vm_compute. repeat split; reflexivity. Qed.

(** X7. A blank line after the header line is passed over without being
    counted: the file gives the same outcome, row numbers included, as the
    file without that line, so that the number in a row line is not the line
    number in a file that has blank lines.  A blank first line is not passed
    over: it is taken as a header without columns, and the load fails with
    the schema error whatever follows. *)
Theorem blank_lines_not_counted (self : analyzer) (header : list string)
    (before after : list (list string)) (fault : option exn) :
  let spaced : file_system := fun _ =>
    Opened {| reader_rows := header :: before ++ [] :: after; reader_fault := fault |} in
  let dense : file_system := fun _ =>
    Opened {| reader_rows := header :: before ++ after; reader_fault := fault |} in
  let blank_first : file_system := fun _ =>
    Opened {| reader_rows := [] :: header :: before ++ after; reader_fault := fault |} in
  Claude.load_data spaced self = Claude.load_data dense self /\
  Gpt41.load_data spaced self = Gpt41.load_data dense self /\
  Claude.load_data blank_first self = (false, set_data self [], [SchemaLine]) /\
  Gpt41.load_data blank_first self = (false, set_data self [], [SchemaLine]).
Proof.
  intros spaced dense blank_first.
  assert (Hrows : dict_rows header (before ++ [] :: after)
                  = dict_rows header (before ++ after)).
  { unfold dict_rows. rewrite !List.filter_app. reflexivity. }
  unfold Claude.load_data, Gpt41.load_data, spaced, dense, blank_first. simpl.
  rewrite Hrows. repeat split; reflexivity.
Qed.

(** A blank line before a bad row: the row on line 4 is reported as row 3. *)
Example blank_line_shifts_row :
  Claude.load_data (file_of [columns; ["A"; "10"; "2"]; []; ["B"; "x"; "1"]])
                   (init "sales_data.csv")
  = (true, set_data (init "sales_data.csv")
             [ {| product_name := "A"; price := ten; quantity := 2 |} ],
     [BadPriceLine 3 "x"]).
Proof. vm_compute. reflexivity. Qed.

(** ** Columns are read by name *)

Lemma claude_load_row_ext (n : Z) (row1 row2 : dict) :
  row1 !! "product_name" = row2 !! "product_name" ->
  row1 !! "price" = row2 !! "price" ->
  row1 !! "quantity" = row2 !! "quantity" ->
  Claude.load_row n row1 = Claude.load_row n row2.
Proof.
  intros Hname Hprice Hquantity. unfold Claude.load_row, get.
  rewrite Hname, Hprice, Hquantity. reflexivity.
Qed.

Lemma gpt41_load_row_ext (n : Z) (row1 row2 : dict) :
  row1 !! "product_name" = row2 !! "product_name" ->
  row1 !! "price" = row2 !! "price" ->
  row1 !! "quantity" = row2 !! "quantity" ->
  Gpt41.load_row n row1 = Gpt41.load_row n row2.
Proof.
  intros Hname Hprice Hquantity. unfold Gpt41.load_row, get.
  rewrite Hname, Hprice, Hquantity. reflexivity.
Qed.

Lemma filter_blank_rows (rows : list (list string)) :
  Forall (fun row => row <> []) rows ->
  List.filter (fun r => negb (is_blank_row r)) rows = rows.
Proof.
  induction 1 as [|row rows Hrow _ IH]; simpl; [reflexivity|].
  destruct row; [contradiction|]. simpl. f_equal. exact IH.
Qed.

Lemma columns_nodup : NoDup columns.
Proof. apply (bool_decide_unpack _). vm_compute. exact I. Qed.

(** The row of a line under its header and the row of its three fields
    under the plain header agree on the three keys. *)
Lemma dict_row_pick (header row : list string) (i j k : nat) :
  NoDup header ->
  header !! i = Some "product_name" ->
  header !! j = Some "price" ->
  header !! k = Some "quantity" ->
  (i < length row /\ j < length row /\ k < length row)%nat ->
  dict_row header row !! "product_name" = dict_row columns (pick i j k row) !! "product_name" /\
  dict_row header row !! "price" = dict_row columns (pick i j k row) !! "price" /\
  dict_row header row !! "quantity" = dict_row columns (pick i j k row) !! "quantity".
Proof.
  intros Hdup Hi Hj Hk (Hli & Hlj & Hlk).
  destruct (lookup_lt_is_Some_2 row i Hli) as [a Ha].
  destruct (lookup_lt_is_Some_2 row j Hlj) as [b Hb].
  destruct (lookup_lt_is_Some_2 row k Hlk) as [c Hc].
  unfold pick. rewrite Ha, Hb, Hc. simpl.
  rewrite (dict_row_field header row i _ a Hdup Hi Ha),
    (dict_row_field header row j _ b Hdup Hj Hb),
    (dict_row_field header row k _ c Hdup Hk Hc).
  rewrite (dict_row_field columns [a; b; c] 0 "product_name" a columns_nodup eq_refl eq_refl),
    (dict_row_field columns [a; b; c] 1 "price" b columns_nodup eq_refl eq_refl),
    (dict_row_field columns [a; b; c] 2 "quantity" c columns_nodup eq_refl eq_refl).
  auto.
Qed.

Lemma load_rows_map_ext (body : Z -> dict -> row_result) (f g : list string -> dict)
    (lines : list (list string)) :
  Forall (fun fields => forall n, body n (f fields) = body n (g fields)) lines ->
  forall n acc, load_rows body n (map f lines) acc = load_rows body n (map g lines) acc.
Proof.
  induction 1 as [|fields lines Hrow _ IH]; intros n acc; simpl.
  - reflexivity.
  - rewrite Hrow. destruct (body n (g fields)); rewrite IH; reflexivity.
Qed.

(** X8. The three fields are found by the name of their column: under a
    header without repeated names, wherever the three columns stand and
    whatever other columns there are, a file whose lines reach the three
    columns gives the outcome of the file (product_name, price, quantity)
    made of these three fields. *)
Theorem columns_read_by_name (self : analyzer) (header : list string)
    (body : list (list string)) (i j k : nat) (fault : option exn) :
  NoDup header ->
  header !! i = Some "product_name" ->
  header !! j = Some "price" ->
  header !! k = Some "quantity" ->
  Forall (fun row => (i < length row /\ j < length row /\ k < length row)%nat) body ->
  let given : file_system := fun _ =>
    Opened {| reader_rows := header :: body; reader_fault := fault |} in
  let plain : file_system := fun _ =>
    Opened {| reader_rows := columns :: map (pick i j k) body; reader_fault := fault |} in
  Claude.load_data given self = Claude.load_data plain self /\
  Gpt41.load_data given self = Gpt41.load_data plain self.
Proof.
  intros Hdup Hi Hj Hk Hbody given plain.
  assert (Hname : "product_name" ∈ header) by (eapply list_elem_of_lookup_2; eauto).
  assert (Hprice : "price" ∈ header) by (eapply list_elem_of_lookup_2; eauto).
  assert (Hquantity : "quantity" ∈ header) by (eapply list_elem_of_lookup_2; eauto).
  assert (Hgiven : dict_rows header body = map (dict_row header) body).
  { unfold dict_rows. rewrite filter_blank_rows; [reflexivity|].
    eapply Forall_impl; [exact Hbody|]. intros row (Hlen & _) ->. simpl in Hlen. lia. }
  assert (Hplain : dict_rows columns (map (pick i j k) body)
                   = map (fun row => dict_row columns (pick i j k row)) body).
  { unfold dict_rows. rewrite filter_blank_rows.
    - rewrite map_map. reflexivity.
    - apply Forall_forall. intros row Hrow.
      apply list_elem_of_In, in_map_iff in Hrow as (fields & <- & _). discriminate. }
  split.
  - assert (Hc : Claude.header_rejected (Some header) = false)
      by (apply claude_header_accepted, Hname).
    rewrite (claude_load_data_opened given self _ header body eq_refl eq_refl Hc),
      (claude_load_data_opened plain self _ columns (map (pick i j k) body)
         eq_refl eq_refl eq_refl).
    rewrite Hgiven, Hplain. simpl reader_fault. f_equal.
    apply load_rows_map_ext. eapply Forall_impl; [exact Hbody|].
    intros row Hrow n.
    destruct (dict_row_pick header row i j k Hdup Hi Hj Hk Hrow) as (H1 & H2 & H3).
    apply claude_load_row_ext; assumption.
  - assert (Hg : Gpt41.header_rejected (Some header) = false)
      by (apply gpt41_header_accepted; auto).
    rewrite (gpt41_load_data_opened given self _ header body eq_refl eq_refl Hg),
      (gpt41_load_data_opened plain self _ columns (map (pick i j k) body)
         eq_refl eq_refl eq_refl).
    rewrite Hgiven, Hplain. simpl reader_fault. f_equal.
    apply load_rows_map_ext. eapply Forall_impl; [exact Hbody|].
    intros row Hrow n.
    destruct (dict_row_pick header row i j k Hdup Hi Hj Hk Hrow) as (H1 & H2 & H3).
    apply gpt41_load_row_ext; assumption.
Qed.

Lemma columns_read_by_name_witness :
  let body := [["2"; "first"; "A"; "10"]; ["-1"; "second"; "B"; "5"]] in
  let given : file_system := fun _ =>
    Opened {| reader_rows := shuffled_columns :: body; reader_fault := None |} in
  let plain : file_system := fun _ =>
    Opened {| reader_rows := columns :: map (pick 2 3 0) body; reader_fault := None |} in
  Claude.load_data given (init "sales_data.csv") = Claude.load_data plain (init "sales_data.csv") /\
  Gpt41.load_data given (init "sales_data.csv") = Gpt41.load_data plain (init "sales_data.csv").
Proof.
  intros body.
  apply (columns_read_by_name (init "sales_data.csv") shuffled_columns body 2 3 0 None).
  - apply (bool_decide_unpack _). vm_compute. exact I.
  - reflexivity.
  - reflexivity.
  - reflexivity.
  - repeat (constructor; [simpl; lia|]). constructor.
Defined.

(** X9. A line that does not reach one of the three columns never becomes
    a record: [analyzer_claude.py] reports it as an unexpected error
    ([AttributeError]), [analyzer_gpt-4-1.py] reads the field as empty and
    reports an empty name, a bad price or a bad quantity. *)
Theorem short_line_is_skipped (header row : list string) (i : nat)
    (key : string) (n : Z) :
  header !! i = Some key ->
  key ∈ columns ->
  (length row <= i)%nat ->
  Claude.load_row n (dict_row header row) = inl (UnexpectedRowLine n AttributeError) /\
  exists l : line,
    Gpt41.load_row n (dict_row header row) = inl l /\
    (l = EmptyNameLine n \/ (exists text, l = BadPriceLine n text) \/
     (exists text, l = BadQuantityLine n text)).
Proof.
  intros Hkey Hcolumn Hshort.
  pose proof (dict_row_short header row i key Hkey Hshort) as Hnone.
  unfold columns in Hcolumn.
  rewrite !elem_of_cons, elem_of_nil in Hcolumn.
  split.
  - unfold Claude.load_row, get.
    destruct Hcolumn as [->|[->|[->|[]]]]; rewrite Hnone;
      repeat match goal with
             | |- context [dict_row header row !! ?k] =>
                 destruct (dict_row header row !! k) as [[?|]|]
             end; reflexivity.
  - unfold Gpt41.load_row, get.
    destruct Hcolumn as [->|[->|[->|[]]]]; rewrite Hnone; simpl or_empty.
    + exists (EmptyNameLine n). split; [reflexivity|auto].
    + destruct (String.eqb _ "").
      { exists (EmptyNameLine n). split; [reflexivity|auto]. }
      change (float_of_string (strip "")) with (@None float).
      eexists. split; [reflexivity|eauto].
    + destruct (String.eqb _ "").
      { exists (EmptyNameLine n). split; [reflexivity|auto]. }
      destruct (float_of_string _).
      2: { eexists. split; [reflexivity|eauto]. }
      change (int_of_string (strip "")) with (@None Z).
      eexists. split; [reflexivity|eauto].
Qed.

Lemma short_line_is_skipped_witness :
  Claude.load_row 2 (dict_row columns ["A"; "5"]) = inl (UnexpectedRowLine 2 AttributeError) /\
  exists l : line,
    Gpt41.load_row 2 (dict_row columns ["A"; "5"]) = inl l /\
    (l = EmptyNameLine 2 \/ (exists text, l = BadPriceLine 2 text) \/
     (exists text, l = BadQuantityLine 2 text)).
Proof.
  apply (short_line_is_skipped columns ["A"; "5"] 2 "quantity" 2).
  - reflexivity.
  - unfold columns. rewrite !elem_of_cons. auto.
  - simpl. lia.
Defined.

(** ** The top product in general *)

(** The scan ends on a record of the list after which no record has a
    strictly greater revenue. *)
Lemma scan_last_replacement (others : list sales_row) (first : sales_row) :
  exists before after : list sales_row,
    first :: others = before ++ fold_left Spec.better others first :: after /\
    Forall (fun later =>
              flt (Spec.revenue (fold_left Spec.better others first))
                  (Spec.revenue later) = false) after.
Proof.
  induction others as [|item others IH] using rev_ind.
  - exists [], []. split; [reflexivity|constructor].
  - destruct IH as (before & after & Hsplit & Hafter).
    rewrite fold_left_app. simpl.
    set (top := fold_left Spec.better others first) in *.
    unfold Spec.better. destruct (flt (Spec.revenue top) (Spec.revenue item)) eqn:Hlt.
    + exists (first :: others), []. split; [|constructor].
      rewrite app_comm_cons. reflexivity.
    + exists before, (after ++ [item]). split.
      * rewrite app_comm_cons, Hsplit, <- app_assoc. reflexivity.
      * apply Forall_app. split; [exact Hafter|]. apply Forall_singleton. exact Hlt.
Qed.

(** X10. On a non-empty collection whose revenues are all defined, NaN
    included, [find_top_product] returns and stores an entry that copies
    the fields of one of the records, with its [price * quantity] as
    [total_revenue], and no record loaded after that one has a strictly
    greater revenue. *)
Theorem top_product_is_a_record (self : analyzer) :
  data self <> [] ->
  Forall fits (data self) ->
  exists (before : list sales_row) (top : sales_row) (after : list sales_row)
         (r : float),
    data self = before ++ top :: after /\
    revenue top = Ret r /\
    Forall (fun later => exists r', revenue later = Ret r' /\ fgt r' r = false) after /\
    let entry := {| entry_product_name := product_name top;
                    entry_price := price top;
                    entry_quantity := quantity top;
                    total_revenue := r |} in
    Claude.find_top_product self
    = (Ret (Some entry), set_top_product self (Some entry), []) /\
    Gpt41.find_top_product self
    = (Ret (Some entry), set_top_product self (Some entry), []).
Proof.
  intros Hne Hfit.
  destruct (find_top_product_fits self Hne Hfit) as [Hclaude Hgpt].
  destruct (data self) as [|first others] eqn:Hdata; [contradiction|].
  destruct (scan_last_replacement others first) as (before & after & Hsplit & Hafter).
  set (top := fold_left Spec.better others first) in *.
  exists before, top, after, (Spec.revenue top).
  assert (Hparts : Forall fits (before ++ top :: after)) by (rewrite <- Hsplit; exact Hfit).
  apply Forall_app in Hparts as [_ Hparts].
  apply Forall_cons in Hparts as [Htop Hlater].
  split; [exact Hsplit|]. split; [apply revenue_fits, Htop|]. split.
  - apply Forall_forall. intros later Hin. exists (Spec.revenue later). split.
    + apply revenue_fits. rewrite Forall_forall in Hlater. apply Hlater, Hin.
    + rewrite Forall_forall in Hafter. exact (Hafter _ Hin).
  - split; [exact Hclaude | exact Hgpt].
Qed.

Lemma top_product_is_a_record_witness :
  exists (before : list sales_row) (top : sales_row) (after : list sales_row)
         (r : float),
    data tie_analyzer = before ++ top :: after /\
    revenue top = Ret r /\
    Forall (fun later => exists r', revenue later = Ret r' /\ fgt r' r = false) after /\
    let entry := {| entry_product_name := product_name top;
                    entry_price := price top;
                    entry_quantity := quantity top;
                    total_revenue := r |} in
    Claude.find_top_product tie_analyzer
    = (Ret (Some entry), set_top_product tie_analyzer (Some entry), []) /\
    Gpt41.find_top_product tie_analyzer
    = (Ret (Some entry), set_top_product tie_analyzer (Some entry), []).
Proof.
  apply (top_product_is_a_record tie_analyzer).
  - discriminate.
  - repeat constructor.
Defined.

(** ** Signs *)

Lemma round_aux_not_negative (m e : Z) (l : location) :
  not_negative (binary_round_aux prec emax false m e l).
Proof.
  unfold binary_round_aux.
  destruct (shr_fexp prec emax m e l) as [mrs e'].
  destruct (shr_fexp prec emax _ e' loc_Exact) as [mrs' e''].
  destruct (shr_m mrs'); [reflexivity| |reflexivity].
  destruct (Z.leb e'' (emax - prec)); reflexivity.
Qed.

Lemma round_not_negative (m : positive) (e : Z) :
  not_negative (binary_round prec emax false m e).
Proof.
  unfold binary_round. destruct (shl_align m e _) as [mz ez].
  apply round_aux_not_negative.
Qed.

Lemma float_of_int_not_negative (z : Z) :
  0 <= z -> not_negative (round_to_float z 0 false).
Proof.
  intros Hz. unfold round_to_float, binary_normalize.
  destruct z as [|m|m]; [reflexivity|apply round_not_negative|lia].
Qed.

Lemma not_negative_cases (x : float) :
  not_negative x ->
  x = S754_nan \/ x = S754_infinity false \/ (exists s, x = S754_zero s) \/
  exists m e, x = S754_finite false m e.
Proof.
  unfold not_negative. destruct x as [s|[]| |[] m e]; intros H;
    try discriminate; eauto 6.
Qed.

Lemma fmul_not_negative (x y : float) :
  not_negative x -> not_negative y -> not_negative (fmul x y).
Proof.
  intros Hx Hy.
  destruct (not_negative_cases x Hx) as [->|[->|[[sx ->]|(mx & ex & ->)]]];
    destruct (not_negative_cases y Hy) as [->|[->|[[sy ->]|(my & ey & ->)]]];
    repeat match goal with s : bool |- _ => destruct s end;
    try reflexivity.
  apply round_aux_not_negative.
Qed.

Lemma fadd_not_negative (x y : float) :
  not_negative x -> not_negative y -> not_negative (fadd x y).
Proof.
  intros Hx Hy.
  destruct (not_negative_cases x Hx) as [->|[->|[[sx ->]|(mx & ex & ->)]]];
    destruct (not_negative_cases y Hy) as [->|[->|[[sy ->]|(my & ey & ->)]]];
    repeat match goal with s : bool |- _ => destruct s end;
    try reflexivity.
  unfold fadd, SFadd, cond_Zopp. simpl Z.add.
  apply round_not_negative.
Qed.

Lemma plain_loop_not_negative (items : list float) (start : float) :
  not_negative start -> Forall not_negative items ->
  not_negative (plain_loop start items).
Proof.
  intros Hstart Hitems. revert start Hstart.
  induction Hitems as [|x items Hx _ IH]; intros start Hstart; simpl.
  - exact Hstart.
  - apply IH. apply fadd_not_negative; assumption.
Qed.

Lemma checked_revenue_not_negative (item : sales_row) :
  checked item -> not_negative (Spec.revenue item).
Proof.
  intros (_ & _ & Hprice & Hquantity). unfold Spec.revenue.
  apply fmul_not_negative; [exact Hprice|].
  apply float_of_int_not_negative, Hquantity.
Qed.

(** X11. On a non-empty collection of checked records whose quantities
    convert to a float, no revenue is below zero: the [total_revenue] of the
    top product is not, and neither is the total that the plain left-to-right
    [sum] returns. *)
Theorem aggregates_not_negative (self : analyzer) :
  data self <> [] ->
  Forall checked (data self) ->
  Forall fits (data self) ->
  exists (total : float) (top : revenue_entry),
    not_negative total /\ not_negative (total_revenue top) /\
    Claude.calculate_total_sales PlainSum self
    = (Ret total, set_total_sales self total, []) /\
    Gpt41.calculate_total_sales PlainSum self
    = (Ret total, set_total_sales self total, []) /\
    Claude.find_top_product self = (Ret (Some top), set_top_product self (Some top), []) /\
    Gpt41.find_top_product self = (Ret (Some top), set_top_product self (Some top), []).
Proof.
  intros Hne Hchecked Hfit.
  destruct (find_top_product_fits self Hne Hfit) as [Hclaude Hgpt].
  unfold Claude.calculate_total_sales, Gpt41.calculate_total_sales.
  rewrite (collect_revenue_fits _ Hfit).
  destruct (data self) as [|first others] eqn:Hdata; [contradiction|].
  assert (Hrevenues : Forall not_negative (map Spec.revenue (first :: others))).
  { apply Forall_fmap. eapply Forall_impl; [exact Hchecked|].
    intros item Hitem. apply checked_revenue_not_negative, Hitem. }
  exists (sum PlainSum (map Spec.revenue (first :: others))),
    (Spec.revenue_entry_of (fold_left Spec.better others first)).
  split.
  { change (map Spec.revenue (first :: others))
      with (Spec.revenue first :: map Spec.revenue others) in *.
    apply Forall_cons in Hrevenues as [Hfirst Hothers].
    change (not_negative (plain_loop (fadd pos_zero (Spec.revenue first))
                                     (map Spec.revenue others))).
    apply plain_loop_not_negative; [|exact Hothers].
    apply fadd_not_negative; [reflexivity|exact Hfirst]. }
  split.
  { change (not_negative (Spec.revenue (fold_left Spec.better others first))).
    apply checked_revenue_not_negative.
    destruct (scan_last_replacement others first) as (before & after & Hsplit & _).
    rewrite Hsplit in Hchecked. apply Forall_app in Hchecked as [_ Hchecked].
    apply Forall_cons in Hchecked as [Htop _]. exact Htop. }
  repeat split; assumption.
Qed.

Lemma aggregates_not_negative_witness :
  exists (total : float) (top : revenue_entry),
    not_negative total /\ not_negative (total_revenue top) /\
    Claude.calculate_total_sales PlainSum tie_analyzer
    = (Ret total, set_total_sales tie_analyzer total, []) /\
    Gpt41.calculate_total_sales PlainSum tie_analyzer
    = (Ret total, set_total_sales tie_analyzer total, []) /\
    Claude.find_top_product tie_analyzer
    = (Ret (Some top), set_top_product tie_analyzer (Some top), []) /\
    Gpt41.find_top_product tie_analyzer
    = (Ret (Some top), set_top_product tie_analyzer (Some top), []).
Proof.
  apply (aggregates_not_negative tie_analyzer).
  - discriminate.
  - repeat constructor; try discriminate; simpl; lia.
  - repeat constructor.
Defined.

(** ** The [__main__] blocks *)

Lemma fits_all_or_not (items : list sales_row) :
  Forall fits items \/ ~ Forall fits items.
Proof.
  induction items as [|item items [IH|IH]].
  - left. constructor.
  - destruct (int_fits_float (quantity item)) eqn:Hitem.
    + left. constructor; assumption.
    + right. intros Hall. apply Forall_cons in Hall as [Hfit _].
      unfold fits in Hfit. congruence.
  - right. intros Hall. apply Forall_cons in Hall as [_ Hrest]. contradiction.
Qed.

Lemma calculate_total_sales_fits (impl : sum_impl) (self : analyzer) :
  data self <> [] ->
  (Forall fits (data self) ->
   Claude.calculate_total_sales impl self
   = (Ret (Spec.total impl (data self)),
      set_total_sales self (Spec.total impl (data self)), [])) /\
  (~ Forall fits (data self) ->
   Claude.calculate_total_sales impl self = (Raise OverflowError, self, [])).
Proof.
  intros Hne. unfold Claude.calculate_total_sales, Spec.total.
  split; intros Hfit.
  - rewrite (collect_revenue_fits _ Hfit). destruct (data self); [contradiction|reflexivity].
  - rewrite (collect_revenue_overflow _ Hfit). destruct (data self); [contradiction|reflexivity].
Qed.

(** What the two blocks do after a load that returned [True]. *)
Lemma claude_main_loaded (impl : sum_impl) (fs : file_system)
    (loaded : analyzer) (out : list line) :
  Claude.load_data fs (init "sales_data.csv") = (true, loaded, out) ->
  (~ Forall fits (data loaded) ->
   Claude.main impl fs = (Raise OverflowError, loaded, out)) /\
  (Forall fits (data loaded) ->
   exists top : sales_row,
     Spec.top_record (data loaded) = Some top /\
     let total := Spec.total impl (data loaded) in
     let entry := Spec.revenue_entry_of top in
     Claude.main impl fs
     = (Ret tt, set_top_product (set_total_sales loaded total) (Some entry),
        out ++ report "sales_data.csv" total entry)).
Proof.
  intros Hload.
  assert (Hne : data loaded <> []).
  { pose proof (shape_success Claude.header_rejected Claude.load_row claude_load_row_record fs (init "sales_data.csv")) as H.
    rewrite <- claude_load_shape, Hload in H. apply H. reflexivity. }
  assert (Hname : filename loaded = "sales_data.csv").
  { pose proof (shape_keeps_aggregates Claude.header_rejected Claude.load_row fs
                  (init "sales_data.csv")) as (H & _).
    rewrite <- claude_load_shape, Hload in H. exact H. }
  destruct (calculate_total_sales_fits impl loaded Hne) as [Hsum Hraise].
  unfold Claude.main. rewrite Hload. split; intros Hfit.
  - rewrite (Hraise Hfit). rewrite app_nil_r. reflexivity.
  - rewrite (Hsum Hfit).
    destruct (find_top_product_fits (set_total_sales loaded (Spec.total impl (data loaded))))
      as [Htop _]; [exact Hne|exact Hfit|].
    rewrite Htop. change (data (set_total_sales loaded _)) with (data loaded).
    destruct (data loaded) as [|first others] eqn:Hdata; [contradiction|].
    exists (fold_left Spec.better others first). split; [reflexivity|].
    unfold Claude.display_results, report. simpl. rewrite Hname. reflexivity.
Qed.

Lemma gpt41_main_loaded (impl : sum_impl) (fs : file_system)
    (loaded : analyzer) (out : list line) :
  Gpt41.load_data fs (init "sales_data.csv") = (true, loaded, out) ->
  (~ Forall fits (data loaded) ->
   Gpt41.main impl fs = (Raise OverflowError, loaded, out)) /\
  (Forall fits (data loaded) ->
   exists top : sales_row,
     Spec.top_record (data loaded) = Some top /\
     let total := Spec.total impl (data loaded) in
     let entry := Spec.revenue_entry_of top in
     Gpt41.main impl fs
     = (Ret tt, set_top_product (set_total_sales loaded total) (Some entry),
        out ++ report "sales_data.csv" total entry)).
Proof.
  intros Hload.
  assert (Hne : data loaded <> []).
  { pose proof (load_true_nonempty fs (init "sales_data.csv")) as H.
    rewrite Hload in H. apply H. reflexivity. }
  destruct (calculate_total_sales_fits impl loaded Hne) as [Hsum Hraise].
  destruct (variants_agree_aux impl loaded) as [Hcalc _].
  unfold Gpt41.main. rewrite Hload, Hcalc. split; intros Hfit.
  - rewrite (Hraise Hfit). rewrite app_nil_r. reflexivity.
  - rewrite (Hsum Hfit).
    destruct (find_top_product_fits (set_total_sales loaded (Spec.total impl (data loaded))))
      as [_ Htop]; [exact Hne|exact Hfit|].
    rewrite Htop. change (data (set_total_sales loaded _)) with (data loaded).
    destruct (data loaded) as [|first others] eqn:Hdata; [contradiction|].
    exists (fold_left Spec.better others first). split; [reflexivity|].
    unfold report. reflexivity.
Qed.

(** X12. After a load that returned [True] on records whose quantities
    convert to a float, the [__main__] block ends normally: the object
    holds the total of all records and the entry of the record the scan
    selects, and the report of nine lines, printed after the row lines of
    the load, shows these two. *)
Theorem main_reports (impl : sum_impl) (fs : file_system) :
  (forall loaded out,
     Claude.load_data fs (init "sales_data.csv") = (true, loaded, out) ->
     Forall fits (data loaded) ->
     exists top : sales_row,
       Spec.top_record (data loaded) = Some top /\
       let total := Spec.total impl (data loaded) in
       let entry := Spec.revenue_entry_of top in
       Claude.main impl fs
       = (Ret tt, set_top_product (set_total_sales loaded total) (Some entry),
          out ++ report "sales_data.csv" total entry)) /\
  (forall loaded out,
     Gpt41.load_data fs (init "sales_data.csv") = (true, loaded, out) ->
     Forall fits (data loaded) ->
     exists top : sales_row,
       Spec.top_record (data loaded) = Some top /\
       let total := Spec.total impl (data loaded) in
       let entry := Spec.revenue_entry_of top in
       Gpt41.main impl fs
       = (Ret tt, set_top_product (set_total_sales loaded total) (Some entry),
          out ++ report "sales_data.csv" total entry)).
Proof.
  split; intros loaded out Hload Hfit.
  - apply (claude_main_loaded impl fs loaded out Hload), Hfit.
  - apply (gpt41_main_loaded impl fs loaded out Hload), Hfit.
Qed.

Lemma main_reports_witness :
  let loaded := set_data (init "sales_data.csv")
                  [ {| product_name := "A"; price := ten; quantity := 2 |} ] in
  let out := [NegativeQuantityLine 3 (-1); EmptyNameLine 4; BadPriceLine 5 "x"] in
  exists top : sales_row,
    Spec.top_record (data loaded) = Some top /\
    let total := Spec.total PlainSum (data loaded) in
    let entry := Spec.revenue_entry_of top in
    Claude.main PlainSum section8_file
    = (Ret tt, set_top_product (set_total_sales loaded total) (Some entry),
       out ++ report "sales_data.csv" total entry).
Proof.
  intros loaded out.
  apply (main_reports PlainSum section8_file).
  - vm_compute. reflexivity.
  - repeat constructor.
Defined.

(** X13. After a load that returned [True] with a record whose quantity
    does not convert to a float, the [__main__] block ends on the
    [OverflowError] that [calculate_total_sales] raises: no report line is
    printed and the object is as the load left it. *)
Theorem main_overflow (impl : sum_impl) (fs : file_system) :
  (forall loaded out,
     Claude.load_data fs (init "sales_data.csv") = (true, loaded, out) ->
     ~ Forall fits (data loaded) ->
     Claude.main impl fs = (Raise OverflowError, loaded, out)) /\
  (forall loaded out,
     Gpt41.load_data fs (init "sales_data.csv") = (true, loaded, out) ->
     ~ Forall fits (data loaded) ->
     Gpt41.main impl fs = (Raise OverflowError, loaded, out)).
Proof.
  split; intros loaded out Hload Hfit.
  - apply (claude_main_loaded impl fs loaded out Hload), Hfit.
  - apply (gpt41_main_loaded impl fs loaded out Hload), Hfit.
Qed.

Lemma main_overflow_witness :
  let loaded := set_data (init "sales_data.csv")
                  [ {| product_name := "A"; price := one; quantity := 10 ^ 400 |} ] in
  Claude.main NeumaierSum huge_quantity_file = (Raise OverflowError, loaded, []).
Proof.
  intros loaded.
  apply (main_overflow NeumaierSum huge_quantity_file).
  - vm_compute. reflexivity.
  - intros Hfit. apply Forall_cons in Hfit as [Hfit _]. vm_compute in Hfit. discriminate.
Defined.

Lemma row_line_not_guard (l : line) :
  is_row_line l = true -> l <> NoDataLine /\ l <> NoTopProductLine.
Proof. destruct l; intros H; try discriminate; split; discriminate. Qed.

Lemma failure_line_not_guard (l : line) :
  is_failure_line l = true -> l <> NoDataLine /\ l <> NoTopProductLine.
Proof. destruct l; intros H; try discriminate; split; discriminate. Qed.

Lemma report_not_guard (name : string) (total : float) (top : revenue_entry) :
  Forall (fun l => l <> NoDataLine /\ l <> NoTopProductLine) (report name total top).
Proof. unfold report. repeat (constructor; [split; discriminate|]). constructor. Qed.

(** X14. Whatever the file, the [__main__] blocks never print the no-data
    line of the aggregation methods nor the no-top-product warning of
    [display_results]: they aggregate only after a load that left records. *)
Theorem main_never_warns (impl : sum_impl) (fs : file_system) :
  Forall (fun l => l <> NoDataLine /\ l <> NoTopProductLine) (Claude.main impl fs).2 /\
  Forall (fun l => l <> NoDataLine /\ l <> NoTopProductLine) (Gpt41.main impl fs).2.
Proof.
  split.
  - destruct (Claude.load_data fs (init "sales_data.csv")) as [[[|] loaded] out] eqn:Hload.
    + pose proof (shape_success Claude.header_rejected Claude.load_row claude_load_row_record fs (init "sales_data.csv")) as Hok.
      rewrite <- claude_load_shape, Hload in Hok.
      destruct (Hok eq_refl) as (_ & _ & Hlines & _). simpl in Hlines.
      assert (Hout : Forall (fun l => l <> NoDataLine /\ l <> NoTopProductLine) out).
      { eapply Forall_impl; [exact Hlines|]. apply row_line_not_guard. }
      destruct (claude_main_loaded impl fs loaded out Hload) as [Hraise Hreport].
      destruct (fits_all_or_not (data loaded)) as [Hfit|Hfit].
      * destruct (Hreport Hfit) as (top & _ & ->). simpl.
        apply Forall_app. split; [exact Hout|apply report_not_guard].
      * rewrite (Hraise Hfit). exact Hout.
    + pose proof (shape_failure Claude.header_rejected Claude.load_row claude_load_row_record fs (init "sales_data.csv")) as Hfail.
      rewrite <- claude_load_shape, Hload in Hfail.
      destruct (Hfail eq_refl) as (lines & final & Hout & Hfinal & Hlines).
      simpl in Hout. subst out. unfold Claude.main. rewrite Hload. simpl.
      repeat (apply Forall_app; split).
      * eapply Forall_impl; [exact Hlines|]. apply row_line_not_guard.
      * apply Forall_singleton, failure_line_not_guard, Hfinal.
      * apply Forall_singleton. split; discriminate.
  - destruct (Gpt41.load_data fs (init "sales_data.csv")) as [[[|] loaded] out] eqn:Hload.
    + pose proof (shape_success Gpt41.header_rejected Gpt41.load_row gpt41_load_row_record fs (init "sales_data.csv")) as Hok.
      rewrite <- gpt41_load_shape, Hload in Hok.
      destruct (Hok eq_refl) as (_ & _ & Hlines & _). simpl in Hlines.
      assert (Hout : Forall (fun l => l <> NoDataLine /\ l <> NoTopProductLine) out).
      { eapply Forall_impl; [exact Hlines|]. apply row_line_not_guard. }
      destruct (gpt41_main_loaded impl fs loaded out Hload) as [Hraise Hreport].
      destruct (fits_all_or_not (data loaded)) as [Hfit|Hfit].
      * destruct (Hreport Hfit) as (top & _ & ->). simpl.
        apply Forall_app. split; [exact Hout|apply report_not_guard].
      * rewrite (Hraise Hfit). exact Hout.
    + pose proof (shape_failure Gpt41.header_rejected Gpt41.load_row gpt41_load_row_record fs (init "sales_data.csv")) as Hfail.
      rewrite <- gpt41_load_shape, Hload in Hfail.
      destruct (Hfail eq_refl) as (lines & final & Hout & Hfinal & Hlines).
      simpl in Hout. subst out. unfold Gpt41.main. rewrite Hload. simpl.
      repeat (apply Forall_app; split).
      * eapply Forall_impl; [exact Hlines|]. apply row_line_not_guard.
      * apply Forall_singleton, failure_line_not_guard, Hfinal.
      * apply Forall_singleton. split; discriminate.
Qed.
